(** * lewis: the OPC UA adapter (lewis/adapters/opcua.py)

    A shallow embedding of [OPCUAAdapter]: the type classifier
    [_get_ua_data_type], the address-space builders [_add_properties] and
    [_add_methods], the lifecycle methods [start_server] / [stop_server], the
    callbacks handed to the protocol engine, and the polling loop
    [_update_variables].

    Python objects are modelled as follows.
    - Runtime values are a closed fragment [PyVal] of Python's values.
    - Dictionaries ([_nodes], [_property_values], the device's attributes)
      are [gmap string _].
    - Statements run in a state-and-exception monad [M] over the adapter
      instance; observable interactions (lock, log, device calls, waits) are
      appended to a trace of [Event]s.
    - The protocol engine (asyncua) is an external collaborator: a [Server]
      record mirrors what the adapter tells its server and node objects.  Of
      its module [ua] the adapter uses the tags of [VariantType], which
      exist, and [ObjectIds.Variant], which does not. *)

From Stdlib Require Import ZArith Floats Ascii DecimalString.
From stdpp Require Import base gmap strings list fin_maps sorting.

Set Warnings "-register-all,-clear-no-such-hyp".

Open Scope Z_scope.
Open Scope string_scope.
Open Scope list_scope.

(** ** Runtime values *)

(** The fragment of Python values the adapter distinguishes.  [VObject c]
    stands for an instance of any other class [c] (dict, tuple, a user
    class, ...). *)
Inductive PyVal : Type :=
  | VNone
  | VBool (b : bool)
  | VInt (z : Z)
  | VFloat (f : float)
  | VStr (s : string)
  | VList (l : list PyVal)
  | VObject (cls : string).

(** The builtin classes named in [isinstance] tests of the module. *)
Inductive PyClass : Type := Cbool | Cint | Cfloat | Cstr | Clist.

(** [isinstance(value, cls)].  In Python [bool] is a subclass of [int], so
    a boolean is an instance of both. *)
Definition isinstance (value : PyVal) (cls : PyClass) : bool :=
  match cls, value with
  | Cbool, VBool _ => true
  | Cint, VBool _ => true
  | Cint, VInt _ => true
  | Cfloat, VFloat _ => true
  | Cstr, VStr _ => true
  | Clist, VList _ => true
  | _, _ => false
  end.

(** Exceptions that the modelled code can raise or see. *)
Inductive Exn : Type :=
  | AttributeError (name : string)
  | NameError (name : string)
  | KeyError (key : string)
  | TypeError (msg : string)
  | ValueError (msg : string)
  | DeviceError (msg : string)
  | EngineError (msg : string).

(** The result of evaluating an expression or running a statement. *)
Inductive Result (A : Type) : Type :=
  | Ok (a : A)
  | Raise (e : Exn).
Arguments Ok {A} a.
Arguments Raise {A} e.

(** [str(e)], as it is interpolated in log messages.  The text of an
    [AttributeError] is given without the description of the object that
    lacks the attribute. *)
Definition str_of_exn (e : Exn) : string :=
  match e with
  | AttributeError n => "object has no attribute '" +:+ n +:+ "'"
  | NameError n => "name '" +:+ n +:+ "' is not defined"
  | KeyError k => "'" +:+ k +:+ "'"
  | TypeError m => m
  | ValueError m => m
  | DeviceError m => m
  | EngineError m => m
  end.

(** ** The type classifier *)

Module ua.
(** The tags of [ua.VariantType] the classifier returns. *)
Inductive VariantType : Type := Boolean | Int64 | Double | String | Variant.

(** [ua.NodeId(identifier)]. *)
Inductive NodeId : Type := mkNodeId (identifier : Z).

(** [ua.ObjectIds.Variant].  [ObjectIds] is the engine's table of the
    numeric ids of the standard nodes; it has no entry named [Variant], so
    the attribute lookup raises. *)
Definition ObjectIds_Variant : Result Z := Raise (AttributeError "Variant").
End ua.

(** [all(isinstance(x, cls) for x in value)]. *)
Definition all_isinstance (cls : PyClass) (value : list PyVal) : bool :=
  forallb (fun x => isinstance x cls) value.

(** The leftmost iterable of the generator on line 285,
    [value or isinstance(x, int)].  It is evaluated in the scope of the
    method, where no [x] is bound: a truthy (non-empty) [value] is returned
    as it is, an empty one makes Python evaluate [isinstance(x, int)] and
    raise [NameError]. *)
Definition value_or_isinstance_x_int (value : list PyVal) : Result (list PyVal) :=
  match value with
  | [] => Raise (NameError "x")
  | _ :: _ => Ok value
  end.

(** The generator on line 285 as Python parses it:
    [isinstance(x, float) for x in (value or isinstance(x, int)) for x in value],
    two nested loops whose element is [isinstance(x, float)] for the [x] of
    the inner loop. *)
Definition line_285_all (value : list PyVal) : Result bool :=
  match value_or_isinstance_x_int value with
  | Raise e => Raise e
  | Ok outer =>
      Ok (forallb (fun b : bool => b)
            (flat_map (fun _ => map (fun x => isinstance x Cfloat) value) outer))
  end.

Definition _get_ua_data_type (value : PyVal) : Result ua.VariantType :=
  if isinstance value Cbool then Ok ua.Boolean
  else if isinstance value Cint then Ok ua.Int64
  else if isinstance value Cfloat then Ok ua.Double
  else if isinstance value Cstr then Ok ua.String
  else match value with
       | VList l =>
           if all_isinstance Cbool l then Ok ua.Boolean
           else if all_isinstance Cint l then Ok ua.Int64
           else match line_285_all l with
                | Raise e => Raise e
                | Ok true => Ok ua.Double
                | Ok false => Ok ua.Variant
                end
       | _ => Ok ua.Variant
       end.

(** The classifier with the two first tests exchanged, for comparison. *)
Definition classify_int_first (value : PyVal) : Result ua.VariantType :=
  if isinstance value Cint then Ok ua.Int64
  else if isinstance value Cbool then Ok ua.Boolean
  else _get_ua_data_type value.

(** ** Configuration *)

(** The options tuple built by the base class from [default_options] and
    the caller's overrides. *)
Record Options : Type := mkOptions {
  port : Z;
  server_name : string;
  uri : string;
  update_interval : float;
  exclude_properties : list string;
  read_only_properties : list string;
  security_mode : string;
  security_policy : string;
  certificate : option string;
  private_key : option string
}.

(** [default_options]; [update_interval] is the binary64 value of [0.1]. *)
Definition default_options : Options :=
  {| port := 4840;
     server_name := "Lewis OPCUA Server";
     uri := "urn:lewis:opcua";
     update_interval := 0x1.999999999999ap-4%float;
     exclude_properties := [];
     read_only_properties := [];
     security_mode := "None";
     security_policy := "None";
     certificate := None;
     private_key := None |}.

(** Truthiness of an optional path: [None] and the empty string are falsy. *)
Definition truthy_path (p : option string) : bool :=
  match p with
  | Some s => negb (String.eqb s "")
  | None => false
  end.

(** Truthiness of a reference that is either [None] or an object ([Server],
    [Thread], device interface) of a class without [__bool__] or [__len__]. *)
Definition is_bound {A : Type} (o : option A) : bool :=
  match o with
  | Some _ => true
  | None => false
  end.

(** ** The device interface *)

(** What a call of a device callable does: its result (or the exception it
    raises) and the attributes it assigns on the device. *)
Record CallOutcome : Type := mkOutcome {
  call_result : Result PyVal;
  call_writes : list (string * PyVal)
}.

(** An attribute of the device interface: a data member, or a callable.
    [sig] is what [inspect.signature] gives for the callable: its parameter
    names, or the message of the exception it raises.  [body] is the
    callable's behaviour, given a view of the data members and the
    positional arguments. *)
Inductive Attr : Type :=
  | Data (v : PyVal)
  | Callable (sig : string + list string)
             (body : (string -> option PyVal) -> list PyVal -> CallOutcome).

(** The device interface as the adapter sees it by reflection: the names
    [dir] lists for it and what [getattr] gives for each. *)
Abbreviation Device := (gmap string Attr).

(** [callable(a)]. *)
Definition callable (a : Attr) : bool :=
  match a with
  | Data _ => false
  | Callable _ _ => true
  end.

(** The value [getattr] returns for an attribute; a callable is an object
    of class [method]. *)
Definition attr_value (a : Attr) : PyVal :=
  match a with
  | Data v => v
  | Callable _ _ => VObject "method"
  end.

(** The data members of a device, as a callable's body sees them. *)
Definition data_view (d : Device) (name : string) : option PyVal :=
  match d !! name with
  | Some (Data v) => Some v
  | _ => None
  end.

(** [setattr(device, name, v)]. *)
Definition setattr (name : string) (v : PyVal) (d : Device) : Device :=
  <[name := Data v]> d.

Definition apply_writes (ws : list (string * PyVal)) (d : Device) : Device :=
  foldl (fun acc w => setattr w.1 w.2 acc) d ws.

(** Python orders strings by code point. *)
Definition str_le (a b : string) : Prop := String.leb a b = true.

#[global] Instance str_le_dec (a b : string) : Decision (str_le a b).
Proof. unfold str_le. apply _. Defined.

(** [dir(device)]: the attribute names, sorted. *)
Definition dir (d : Device) : list string :=
  merge_sort str_le (elements (dom d)).

(** [name.startswith('_')]. *)
Definition startswith_underscore (name : string) : bool :=
  match name with
  | String c _ => Ascii.eqb c "_"%char
  | EmptyString => false
  end.

(** ** The protocol engine *)

(** [ua.Argument]; the array dimensions are always empty. *)
Record Argument : Type := mkArgument {
  arg_name : string;
  arg_data_type : ua.NodeId;
  arg_value_rank : Z;
  arg_description : string
}.

(** The two kinds of closure the adapter hands to the engine.
    [write_callback] is made by [make_callback(property)] and owns its
    [property_name].  [method_wrapper] refers to the variable [method_name]
    of the activation of [_add_methods] that created it; [frame] names that
    activation. *)
Inductive Closure : Type :=
  | write_callback (property_name : string)
  | method_wrapper (frame : nat).

Record VariableNode : Type := mkVariableNode {
  vn_value : PyVal;
  vn_data_type : ua.VariantType;
  vn_writeable : bool;
  vn_set_value_callback : option Closure
}.

Record MethodNode : Type := mkMethodNode {
  mn_callback : Closure;
  mn_inputs : list Argument;
  mn_outputs : list Argument
}.

(** What the adapter has told the engine's [Server] object. *)
Record Server : Type := mkServer {
  srv_endpoint : option string;
  srv_name : option string;
  srv_certificate : option string;
  srv_private_key : option string;
  srv_security_policy : list string;
  srv_namespaces : list string;
  srv_objects : list string;
  srv_variables : gmap string VariableNode;
  srv_methods : gmap string MethodNode;
  srv_started : bool
}.

(** [Server()]. *)
Definition new_Server : Server :=
  mkServer None None None None [] [] [] ∅ ∅ false.

(** A node handle: namespace index and browse name. *)
Record Node : Type := mkNode {
  node_idx : nat;
  node_name : string
}.

(** [threading.Thread(target=..., daemon=...)]. *)
Record Thread : Type := mkThread {
  target : string;
  daemon : bool
}.

(** ** Observable interactions *)

Inductive Event : Type :=
  | Acquire                                  (* entering [with self.device_lock] *)
  | Release                                  (* leaving it *)
  | LogInfo (msg : string)
  | LogWarning (msg : string)
  | IsSet (b : bool)                         (* [_stop_event.is_set()] *)
  | Wait (timeout : float)                   (* [_stop_event.wait(timeout)] *)
  | Sleep (seconds : float)                  (* [time.sleep(seconds)] *)
  | Call (name : string) (args : list PyVal) (* a device callable is invoked *)
  | SetAttr (name : string) (v : PyVal)      (* [setattr] on the device *)
  | SetValue (name : string) (v : PyVal)     (* [node.set_value(v)] *)
  | ThreadStart (t : Thread)
  | ThreadJoin (timeout : float)
  | TransportStart
  | TransportStop.

(** ** The adapter instance *)

(** The attributes of an [OPCUAAdapter] instance, together with the two
    pieces of the Python runtime its code depends on: [cells] holds, per
    activation of [_add_methods], the current value of its local variable
    [method_name] (closures created there read it), and [trace] records the
    interactions so far, oldest first. *)
Record OPCUAAdapter : Type := mkAdapter {
  _options : Options;
  interface : option Device;
  _server : option Server;
  _running : bool;
  _nodes : gmap string Node;
  _update_thread : option Thread;
  _stop_event : bool;
  _property_values : gmap string PyVal;
  cells : list (option string);
  trace : list Event
}.

(** [OPCUAAdapter.__init__], after the base class has merged the options
    and a device has or has not been bound. *)
Definition __init__ (options : Options) (device : option Device) : OPCUAAdapter :=
  {| _options := options;
     interface := device;
     _server := None;
     _running := false;
     _nodes := ∅;
     _update_thread := None;
     _stop_event := false;
     _property_values := ∅;
     cells := [];
     trace := [] |}.

(** Field updates. *)
Definition set_interface (d : option Device) (s : OPCUAAdapter) : OPCUAAdapter :=
  mkAdapter (_options s) d (_server s) (_running s) (_nodes s) (_update_thread s)
            (_stop_event s) (_property_values s) (cells s) (trace s).

Definition set__server (v : option Server) (s : OPCUAAdapter) : OPCUAAdapter :=
  mkAdapter (_options s) (interface s) v (_running s) (_nodes s) (_update_thread s)
            (_stop_event s) (_property_values s) (cells s) (trace s).

Definition set__running (v : bool) (s : OPCUAAdapter) : OPCUAAdapter :=
  mkAdapter (_options s) (interface s) (_server s) v (_nodes s) (_update_thread s)
            (_stop_event s) (_property_values s) (cells s) (trace s).

Definition set__nodes (v : gmap string Node) (s : OPCUAAdapter) : OPCUAAdapter :=
  mkAdapter (_options s) (interface s) (_server s) (_running s) v (_update_thread s)
            (_stop_event s) (_property_values s) (cells s) (trace s).

Definition set__update_thread (v : option Thread) (s : OPCUAAdapter) : OPCUAAdapter :=
  mkAdapter (_options s) (interface s) (_server s) (_running s) (_nodes s) v
            (_stop_event s) (_property_values s) (cells s) (trace s).

Definition set__stop_event (v : bool) (s : OPCUAAdapter) : OPCUAAdapter :=
  mkAdapter (_options s) (interface s) (_server s) (_running s) (_nodes s) (_update_thread s)
            v (_property_values s) (cells s) (trace s).

Definition set__property_values (v : gmap string PyVal) (s : OPCUAAdapter) : OPCUAAdapter :=
  mkAdapter (_options s) (interface s) (_server s) (_running s) (_nodes s) (_update_thread s)
            (_stop_event s) v (cells s) (trace s).

Definition set_cells (v : list (option string)) (s : OPCUAAdapter) : OPCUAAdapter :=
  mkAdapter (_options s) (interface s) (_server s) (_running s) (_nodes s) (_update_thread s)
            (_stop_event s) (_property_values s) v (trace s).

Definition set_trace (v : list Event) (s : OPCUAAdapter) : OPCUAAdapter :=
  mkAdapter (_options s) (interface s) (_server s) (_running s) (_nodes s) (_update_thread s)
            (_stop_event s) (_property_values s) (cells s) v.

(** ** Statements: state and exceptions *)

(** A statement runs on the instance and either completes with a value or
    raises; what it changed before raising stays changed. *)
Definition M (A : Type) : Type := OPCUAAdapter -> Result A * OPCUAAdapter.

Definition ret {A : Type} (a : A) : M A := fun s => (Ok a, s).

Definition raise {A : Type} (e : Exn) : M A := fun s => (Raise e, s).

Definition bind {A B : Type} (m : M A) (f : A -> M B) : M B :=
  fun s => match m s with
           | (Ok a, s') => f a s'
           | (Raise e, s') => (Raise e, s')
           end.

Declare Scope py_scope.
Delimit Scope py_scope with py.
Notation "x <- c1 ;; c2" := (bind c1 (fun x => c2))
  (at level 100, c1 at next level, right associativity) : py_scope.
Notation "c1 ;; c2" := (bind c1 (fun _ => c2))
  (at level 100, right associativity) : py_scope.
Open Scope py_scope.

Definition gets {A : Type} (f : OPCUAAdapter -> A) : M A := fun s => (Ok (f s), s).

Definition modify (f : OPCUAAdapter -> OPCUAAdapter) : M unit := fun s => (Ok tt, f s).

Definition emit (ev : Event) : M unit :=
  modify (fun s => set_trace (trace s ++ [ev]) s).

Definition lift {A : Type} (r : Result A) : M A := fun s => (r, s).

(** [try: body except Exception as e: handler(e)]. *)
Definition try_except {A : Type} (body : M A) (handler : Exn -> M A) : M A :=
  fun s => match body s with
           | (Ok a, s') => (Ok a, s')
           | (Raise e, s') => handler e s'
           end.

(** [with self.device_lock: body]: the lock is released on the way out,
    whether [body] completes or raises. *)
Definition with_device_lock {A : Type} (body : M A) : M A :=
  fun s => match body (set_trace (trace s ++ [Acquire]) s) with
           | (r, s') => (r, set_trace (trace s' ++ [Release]) s')
           end.

(** [for x in xs: body(x)]. *)
Fixpoint for_each {A : Type} (xs : list A) (body : A -> M unit) : M unit :=
  match xs with
  | [] => ret tt
  | x :: rest => body x ;; for_each rest body
  end.

(** ** Attribute lookup on the instance *)

(** Names bound by the class body of [OPCUAAdapter].  The three functions
    defined below line 319 ([is_running], [handle], [_update_variables]) are
    indented into the body of [stop_server]: they are local to it and are
    not attributes of the class. *)
Definition class_attributes : list string :=
  ["default_options"; "protocol"; "__init__"; "start_server"; "_add_properties";
   "_add_methods"; "_get_ua_data_type"; "stop_server"].

(** Names assigned on the instance by [__init__]. *)
Definition init_attributes : list string :=
  ["_server"; "_running"; "_nodes"; "_update_thread"; "_stop_event";
   "_property_values"].

(** Modelled from the spec: the base class [Adapter] and the [has_log]
    decorator (lewis.core) are not among the sources.  From them an
    instance has the merged configuration [_options] (Bridge Configuration:
    defaults supplied, caller overrides merged over them), the bound device
    [interface] with its exclusive-access resource [device_lock] (Device
    Interface), the logger [log], and the runtime's entry points [handle]
    and [is_running] (Bridge Lifecycle). *)
Definition inherited_attributes : list string :=
  ["_options"; "interface"; "device_lock"; "log"; "handle"; "is_running"].

(** What an attribute lookup on [self] yields: the options tuple, or some
    other object. *)
Inductive SelfAttr : Type :=
  | AOptions (o : Options)
  | AObject.

(** [self.<name>]. *)
Definition self_getattr (name : string) : M SelfAttr :=
  fun s =>
    if bool_decide (name = "_options") then (Ok (AOptions (_options s)), s)
    else if bool_decide (name ∈ class_attributes ++ init_attributes ++ inherited_attributes)
         then (Ok AObject, s)
         else (Raise (AttributeError name), s).

(** [self.<name>.<field>] for a field of the options tuple. *)
Definition options_of {A : Type} (name : string) (field : string) (proj : Options -> A) : M A :=
  v <- self_getattr name ;;
  match v with
  | AOptions o => ret (proj o)
  | AObject => raise (AttributeError field)
  end.

(** [dir(self.interface)].  The builders run only when a device is bound;
    with none bound every name [dir] lists is a dunder name, which both
    builders skip, so the list is taken empty. *)
Definition dir_interface : M (list string) :=
  gets (fun s => match interface s with
                 | Some d => dir d
                 | None => []
                 end).

(** [getattr(self.interface, name)]. *)
Definition getattr_interface (name : string) : M Attr :=
  fun s => match interface s ≫= (fun d => d !! name) with
           | Some a => (Ok a, s)
           | None => (Raise (AttributeError name), s)
           end.

(** ** Calls into the protocol engine *)

(** A call of a method of [self._server] or of one of its nodes. *)
Definition server_update (f : Server -> Server) : M unit :=
  fun s => match _server s with
           | Some srv => (Ok tt, set__server (Some (f srv)) s)
           | None => (Raise (AttributeError "_server"), s)
           end.

Definition set_endpoint (endpoint : string) (srv : Server) : Server :=
  mkServer (Some endpoint) (srv_name srv) (srv_certificate srv) (srv_private_key srv)
           (srv_security_policy srv) (srv_namespaces srv) (srv_objects srv)
           (srv_variables srv) (srv_methods srv) (srv_started srv).

Definition set_server_name (name : string) (srv : Server) : Server :=
  mkServer (srv_endpoint srv) (Some name) (srv_certificate srv) (srv_private_key srv)
           (srv_security_policy srv) (srv_namespaces srv) (srv_objects srv)
           (srv_variables srv) (srv_methods srv) (srv_started srv).

Definition load_certificate (path : option string) (srv : Server) : Server :=
  mkServer (srv_endpoint srv) (srv_name srv) path (srv_private_key srv)
           (srv_security_policy srv) (srv_namespaces srv) (srv_objects srv)
           (srv_variables srv) (srv_methods srv) (srv_started srv).

Definition load_private_key (path : option string) (srv : Server) : Server :=
  mkServer (srv_endpoint srv) (srv_name srv) (srv_certificate srv) path
           (srv_security_policy srv) (srv_namespaces srv) (srv_objects srv)
           (srv_variables srv) (srv_methods srv) (srv_started srv).

Definition set_security_policy (policies : list string) (srv : Server) : Server :=
  mkServer (srv_endpoint srv) (srv_name srv) (srv_certificate srv) (srv_private_key srv)
           policies (srv_namespaces srv) (srv_objects srv)
           (srv_variables srv) (srv_methods srv) (srv_started srv).

Definition set_namespaces (ns : list string) (srv : Server) : Server :=
  mkServer (srv_endpoint srv) (srv_name srv) (srv_certificate srv) (srv_private_key srv)
           (srv_security_policy srv) ns (srv_objects srv)
           (srv_variables srv) (srv_methods srv) (srv_started srv).

Definition set_objects (objs : list string) (srv : Server) : Server :=
  mkServer (srv_endpoint srv) (srv_name srv) (srv_certificate srv) (srv_private_key srv)
           (srv_security_policy srv) (srv_namespaces srv) objs
           (srv_variables srv) (srv_methods srv) (srv_started srv).

Definition set_variables (vs : gmap string VariableNode) (srv : Server) : Server :=
  mkServer (srv_endpoint srv) (srv_name srv) (srv_certificate srv) (srv_private_key srv)
           (srv_security_policy srv) (srv_namespaces srv) (srv_objects srv)
           vs (srv_methods srv) (srv_started srv).

Definition set_methods (ms : gmap string MethodNode) (srv : Server) : Server :=
  mkServer (srv_endpoint srv) (srv_name srv) (srv_certificate srv) (srv_private_key srv)
           (srv_security_policy srv) (srv_namespaces srv) (srv_objects srv)
           (srv_variables srv) ms (srv_started srv).

Definition set_started (b : bool) (srv : Server) : Server :=
  mkServer (srv_endpoint srv) (srv_name srv) (srv_certificate srv) (srv_private_key srv)
           (srv_security_policy srv) (srv_namespaces srv) (srv_objects srv)
           (srv_variables srv) (srv_methods srv) b.

(** [self._server.register_namespace(uri)]: the index of the new entry. *)
Definition register_namespace (uri_ : string) : M nat :=
  fun s => match _server s with
           | Some srv =>
               (Ok (length (srv_namespaces srv)),
                set__server (Some (set_namespaces (srv_namespaces srv ++ [uri_]) srv)) s)
           | None => (Raise (AttributeError "_server"), s)
           end.

(** [self._server.get_objects_node()]. *)
Definition get_objects_node : M Node :=
  server_update (fun srv => srv) ;; ret (mkNode 0 "Objects").

(** [objects.add_object(idx, name)]. *)
Definition add_object (idx : nat) (name : string) : M Node :=
  server_update (fun srv => set_objects (srv_objects srv ++ [name]) srv) ;;
  ret (mkNode idx name).

(** [device_node.add_variable(idx, name, value, data_type)]. *)
Definition add_variable (idx : nat) (name : string) (value : PyVal)
    (data_type : ua.VariantType) : M Node :=
  server_update (fun srv =>
    set_variables (<[name := mkVariableNode value data_type false None]> (srv_variables srv)) srv) ;;
  ret (mkNode idx name).

(** [var.set_writeable(writeable)]. *)
Definition set_writeable (var : Node) (writeable : bool) : M unit :=
  server_update (fun srv =>
    set_variables
      (alter (fun n => mkVariableNode (vn_value n) (vn_data_type n) writeable
                                      (vn_set_value_callback n))
             (node_name var) (srv_variables srv)) srv).

(** [var.set_value_callback = callback]. *)
Definition assign_set_value_callback (var : Node) (callback : Closure) : M unit :=
  server_update (fun srv =>
    set_variables
      (alter (fun n => mkVariableNode (vn_value n) (vn_data_type n) (vn_writeable n)
                                      (Some callback))
             (node_name var) (srv_variables srv)) srv).

(** [device_node.add_method(idx, name, callback, inputs, outputs)]. *)
Definition add_method (idx : nat) (name : string) (callback : Closure)
    (inputs outputs : list Argument) : M Node :=
  server_update (fun srv =>
    set_methods (<[name := mkMethodNode callback inputs outputs]> (srv_methods srv)) srv) ;;
  ret (mkNode idx name).

(** ** The address-space builders *)

Definition _add_properties (idx : nat) (device_node : Node) : M unit :=
  names <- dir_interface ;;
  for_each names (fun property =>
    excluded <- options_of "_options" "exclude_properties" exclude_properties ;;
    if bool_decide (property ∈ excluded) then ret tt
    else if startswith_underscore property then ret tt
    else
      a <- getattr_interface property ;;
      if callable a then ret tt
      else
        a' <- getattr_interface property ;;
        let value := attr_value a' in
        read_only <- options_of "_options" "read_only_properties" read_only_properties ;;
        let writeable := negb (bool_decide (property ∈ read_only)) in
        data_type <- lift (_get_ua_data_type value) ;;
        var <- add_variable idx property value data_type ;;
        set_writeable var writeable ;;
        modify (fun s => set__nodes (<[property := var]> (_nodes s)) s) ;;
        modify (fun s => set__property_values (<[property := value]> (_property_values s)) s) ;;
        if writeable
        then assign_set_value_callback var (write_callback property)
        else ret tt).

(** [inspect.signature(method)]. *)
Definition inspect_signature (a : Attr) : M (list string) :=
  match a with
  | Callable (inr params) _ => ret params
  | Callable (inl msg) _ => raise (ValueError msg)
  | Data _ => raise (TypeError "not a callable object")
  end.

(** [ua.Argument(name=name, data_type=ua.NodeId(ua.ObjectIds.Variant),
    value_rank=-1, array_dimensions=[], description=<empty>)], the
    descriptor built for a parameter or for the result.  The arguments of
    the call are evaluated first, [ua.ObjectIds.Variant] among them. *)
Definition variant_argument (name : string) : M Argument :=
  identifier <- lift ua.ObjectIds_Variant ;;
  ret (mkArgument name (ua.mkNodeId identifier) (-1) "").

(** The loop over [signature.parameters] on lines 224-235, which appends a
    descriptor to [inputs] for every parameter but [self]. *)
Fixpoint inputs_of_parameters (params : list string) (inputs : list Argument)
    : M (list Argument) :=
  match params with
  | [] => ret inputs
  | param_name :: rest =>
      if bool_decide (param_name = "self") then inputs_of_parameters rest inputs
      else
        argument <- variant_argument param_name ;;
        inputs_of_parameters rest (inputs ++ [argument])
  end.

(** A new activation of [_add_methods]: its [method_name] is unbound. *)
Definition new_frame : M nat :=
  fun s => (Ok (length (cells s)), set_cells (cells s ++ [None]) s).

(** The loop of [_add_methods] binds [method_name] in its activation. *)
Definition assign_method_name (frame : nat) (name : string) : M unit :=
  modify (fun s => set_cells (<[frame := Some name]> (cells s)) s).

Definition log_warning (msg : string) : M unit := emit (LogWarning msg).

Definition log_info (msg : string) : M unit := emit (LogInfo msg).

Definition _add_methods (idx : nat) (device_node : Node) : M unit :=
  frame <- new_frame ;;
  names <- dir_interface ;;
  for_each names (fun method_name =>
    assign_method_name frame method_name ;;
    a <- getattr_interface method_name ;;
    if negb (callable a) then ret tt
    else if startswith_underscore method_name then ret tt
    else
      method <- getattr_interface method_name ;;
      try_except
        (params <- inspect_signature method ;;
         inputs <- inputs_of_parameters params [] ;;
         result_argument <- variant_argument "Result" ;;
         let outputs := [result_argument] in
         add_method idx method_name (method_wrapper frame) inputs outputs ;;
         ret tt)
        (fun e =>
           log_warning ("Failed to add method " +:+ method_name +:+ ": " +:+ str_of_exn e))).

(** ** The callbacks *)

(** The body of [write_callback(node, val)] made for [property_name]. *)
Definition run_write_callback (property_name : string) (val : PyVal) : M bool :=
  with_device_lock
    (fun s => match interface s with
              | Some d =>
                  (Ok tt, set_trace (trace s ++ [SetAttr property_name val])
                                    (set_interface (Some (setattr property_name val d)) s))
              | None => (Raise (AttributeError property_name), s)
              end) ;;
  ret true.

(** Reading the variable [method_name] of an activation of
    [_add_methods] from a closure created there. *)
Definition read_method_name (frame : nat) : M string :=
  fun s => match cells s !! frame with
           | Some (Some name) => (Ok name, s)
           | _ => (Raise (NameError "method_name"), s)
           end.

(** Calling the attribute [callee] found under [name] with the positional
    arguments [args]. *)
Definition call_attr (name : string) (callee : Attr) (args : list PyVal) : M PyVal :=
  match callee with
  | Data _ => raise (TypeError "object is not callable")
  | Callable _ body =>
      fun s =>
        match interface s with
        | Some d =>
            let out := body (data_view d) args in
            (call_result out,
             set_trace (trace s ++ [Call name args])
                       (set_interface (Some (apply_writes (call_writes out) d)) s))
        | None => (Raise (AttributeError name), s)
        end
  end.

(** The body of [method_wrapper(parent, *args)] created by the activation
    [frame] of [_add_methods]. *)
Definition run_method_wrapper (frame : nat) (args : list PyVal) : M (list PyVal) :=
  with_device_lock
    (method_name <- read_method_name frame ;;
     callee <- getattr_interface method_name ;;
     result <- call_attr method_name callee args ;;
     ret (match result with
          | VNone => []
          | _ => [result]
          end)).

(** The engine invokes the callback registered for a method node. *)
Definition invoke_method_node (name : string) (args : list PyVal) : M (list PyVal) :=
  fun s =>
    match _server s ≫= (fun srv => srv_methods srv !! name) with
    | Some (mkMethodNode (method_wrapper frame) _ _) => run_method_wrapper frame args s
    | Some (mkMethodNode (write_callback _) _ _) => (Raise (TypeError "not a method callback"), s)
    | None => (Raise (EngineError "no such method node"), s)
    end.

(** ** The environment *)

(** What the adapter cannot decide by itself: Python's [!=] on two runtime
    values (it dispatches to the values' own comparison methods), whether
    the engine rejects a value pushed to a node, and whether the transport
    fails to start. *)
Record Runtime : Type := mkRuntime {
  py_ne : PyVal -> PyVal -> bool;
  set_value_raises : string -> PyVal -> option Exn;
  transport_raises : option Exn
}.

(** [str(port)] in the endpoint f-string. *)
Definition str_of_Z (z : Z) : string := NilZero.string_of_int (Z.to_int z).

Section Lifecycle.

Context (rt : Runtime).

(** [self._server.start()]. *)
Definition server_start : M unit :=
  match transport_raises rt with
  | Some e => server_update (fun srv => srv) ;; raise e
  | None => server_update (set_started true) ;; emit TransportStart
  end.

(** The condition on lines 109 to 112, a chain of [and]: each operand is
    evaluated only when the ones before it are truthy. *)
Definition security_specified : M bool :=
  mode <- options_of "_option" "security_mode" security_mode ;;
  if negb (String.eqb mode "None") then
    policy <- options_of "_options" "security_policy" security_policy ;;
    if negb (String.eqb policy "None") then
      cert <- options_of "_options" "certificate" certificate ;;
      if truthy_path cert then
        key <- options_of "_options" "private_key" private_key ;;
        ret (truthy_path key)
      else ret false
    else ret false
  else ret false.

Definition start_server : M unit :=
  running <- gets _running ;;
  if running then ret tt
  else
    modify (set__server (Some new_Server)) ;;
    port_ <- options_of "_options" "port" port ;;
    let endpoint := "opc.tcp://0.0.0.0:" +:+ str_of_Z port_ in
    server_update (set_endpoint endpoint) ;;
    name <- options_of "_options" "server_name" server_name ;;
    server_update (set_server_name name) ;;
    secure <- security_specified ;;
    (if secure then
       cert <- options_of "_options" "certificate" certificate ;;
       server_update (load_certificate cert) ;;
       key <- options_of "_options" "private_key" private_key ;;
       server_update (load_private_key key) ;;
       policy <- options_of "_options" "security_policy" security_policy ;;
       mode <- options_of "_options" "security_mode" security_mode ;;
       let security_string := policy +:+ ", " +:+ mode in
       server_update (set_security_policy [security_string])
     else ret tt) ;;
    uri_ <- options_of "_option" "uri" uri ;;
    idx <- register_namespace uri_ ;;
    objects <- get_objects_node ;;
    device_node <- add_object idx "Device" ;;
    bound <- gets interface ;;
    (if is_bound bound then
       _add_properties idx device_node ;;
       _add_methods idx device_node
     else ret tt) ;;
    server_start ;;
    modify (set__running true) ;;
    modify (set__stop_event false) ;;
    self_getattr "_update_variables" ;;
    let thread := mkThread "_update_variables" true in
    modify (set__update_thread (Some thread)) ;;
    emit (ThreadStart thread) ;;
    log_info ("OPCUA Server started on " +:+ endpoint).

Definition stop_server : M unit :=
  running <- gets _running ;;
  if negb running then ret tt
  else
    modify (set__stop_event true) ;;
    thread <- gets _update_thread ;;
    (if is_bound thread then
       emit (ThreadJoin 2%float) ;;
       modify (set__update_thread None)
     else ret tt) ;;
    server <- gets _server ;;
    (if is_bound server then
       server_update (set_started false) ;;
       emit TransportStop ;;
       modify (set__server None)
     else ret tt) ;;
    modify (set__running false) ;;
    modify (set__nodes ∅) ;;
    modify (set__property_values ∅) ;;
    log_info "OPCUA server stopped".

(** ** The functions nested in [stop_server]

    Lines 321 to 368 define [is_running], [handle] and [_update_variables]
    inside [stop_server], after its last statement.  Python binds them as
    locals of that call and drops them when it returns; nothing calls them.
    Their bodies are embedded here as they are written. *)

Definition is_running : M bool := gets _running.

(** [min(a, b)] on floats: [b] when [b < a], else [a]. *)
Definition float_min (a b : float) : float :=
  if PrimFloat.ltb b a then b else a.

Definition handle (cycle_delay : float) : M unit :=
  running <- gets _running ;;
  bound <- gets interface ;;
  if running && is_bound bound then
    interval <- options_of "_options" "update_interval" update_interval ;;
    emit (Sleep (float_min cycle_delay interval))
  else ret tt.

(** [node.set_value(value)]. *)
Definition node_set_value (node : Node) (value : PyVal) : M unit :=
  emit (SetValue (node_name node) value) ;;
  match set_value_raises rt (node_name node) value with
  | Some e => raise e
  | None =>
      server_update (fun srv =>
        set_variables
          (alter (fun n => mkVariableNode value (vn_data_type n) (vn_writeable n)
                                          (vn_set_value_callback n))
                 (node_name node) (srv_variables srv)) srv)
  end.

(** The test on line 361:
    [property not in self._property_values or
     self._property_values[property] != current_value]. *)
Definition value_changed (cache : gmap string PyVal) (property : string)
    (current_value : PyVal) : bool :=
  match cache !! property with
  | None => true
  | Some cached => py_ne rt cached current_value
  end.

(** The body of the [for] loop on lines 356 to 366, for one item. *)
Definition update_property (property : string) (node : Node) : M unit :=
  bound <- gets interface ;;
  match bound ≫= (fun d => d !! property) with
  | None => ret tt
  | Some a =>
      let current_value := attr_value a in
      cache <- gets _property_values ;;
      if value_changed cache property current_value then
        try_except
          (node_set_value node current_value ;;
           modify (fun s =>
             set__property_values (<[property := current_value]> (_property_values s)) s))
          (fun e =>
             log_warning ("Failed to update node " +:+ property +:+ ": " +:+ str_of_exn e))
      else ret tt
  end.

(** One pass through the body of the [while] loop (lines 355 to 368).  The
    call of [_stop_event.wait] on line 368 is indented under the [with].
    The items of the dictionary are visited in the order of [map_to_list];
    nothing stated below depends on that order. *)
Definition poll_cycle : M unit :=
  with_device_lock
    (items <- gets (fun s => map_to_list (_nodes s)) ;;
     for_each items (fun item => update_property item.1 item.2) ;;
     interval <- options_of "_options" "update_interval" update_interval ;;
     emit (Wait interval)).

(** The loop condition on line 353. *)
Definition keep_polling : M bool :=
  stopped <- gets _stop_event ;;
  emit (IsSet stopped) ;;
  if stopped then ret false
  else
    running <- gets _running ;;
    if negb running then ret false
    else
      bound <- gets interface ;;
      ret (is_bound bound).

(** [_update_variables], for at most [fuel] passes.  The result tells
    whether the loop was left ([true]) or the passes ran out ([false]). *)
Fixpoint _update_variables (fuel : nat) : M bool :=
  match fuel with
  | O => ret false
  | S fuel' =>
      continue <- keep_polling ;;
      if continue then poll_cycle ;; _update_variables fuel'
      else ret true
  end.

End Lifecycle.


(** ** Example devices and environments *)

(** An environment for the examples: [!=] compares booleans, integers,
    floats and strings of equal type as Python does and takes every other
    pair as different; the engine accepts every value and the transport
    starts. *)
Definition example_ne (a b : PyVal) : bool :=
  match a, b with
  | VNone, VNone => false
  | VBool x, VBool y => negb (Bool.eqb x y)
  | VInt x, VInt y => negb (Z.eqb x y)
  | VFloat x, VFloat y => negb (PrimFloat.eqb x y)
  | VStr x, VStr y => negb (String.eqb x y)
  | _, _ => true
  end.

Definition example_runtime : Runtime :=
  mkRuntime example_ne (fun _ _ => None) None.

(** A device with the attributes the class [ExampleOPCUADevice] of
    lewis/examples/opcua_device defines itself: two data members and two
    methods that return [True].  Here and below the dunder names that [dir]
    lists for every object are left out: they start with an underscore, so
    both builders pass them over, and they sort before every lower-case
    name. *)
Definition set_temperature_body (_ : string -> option PyVal) (args : list PyVal)
    : CallOutcome :=
  match args with
  | [VFloat value] => mkOutcome (Ok (VBool true)) [("temperature", VFloat value)]
  | _ => mkOutcome (Raise (TypeError "set_temperature() takes one float")) []
  end.

Definition reset_body (_ : string -> option PyVal) (_ : list PyVal) : CallOutcome :=
  mkOutcome (Ok (VBool true)) [("temperature", VFloat 25); ("power", VBool false)].

Definition example_device : Device :=
  {[ "temperature" := Data (VFloat 25);
     "power" := Data (VBool false);
     "set_temperature" := Callable (inr ["value"]) set_temperature_body;
     "reset" := Callable (inr []) reset_body ]}.

(** A device with two methods and no data member: [start] returns [True],
    [stop] returns nothing. *)
Definition two_method_device : Device :=
  {[ "start" := Callable (inr []) (fun _ _ => mkOutcome (Ok (VBool true)) []);
     "stop" := Callable (inr []) (fun _ _ => mkOutcome (Ok VNone) []) ]}.

(** A device one of whose callables has no introspectable signature. *)
Definition opaque_method_device : Device :=
  {[ "level" := Data (VInt 3);
     "calibrate" := Callable (inl "no signature found") (fun _ _ => mkOutcome (Ok VNone) []);
     "reset" := Callable (inr []) reset_body ]}.

(** A fresh adapter with the default options, bound to a device. *)
Definition fresh (d : Device) : OPCUAAdapter := __init__ default_options (Some d).

(** The instance as [start_server] has it when it reaches the builders: a
    new server, nothing built yet. *)
Definition before_build (d : Device) : OPCUAAdapter :=
  set__server (Some new_Server) (fresh d).

(** The instance after the two builders have run on [before_build d], with
    the namespace index and the device node a new server gives. *)
Definition built (d : Device) : OPCUAAdapter :=
  ((_add_properties 0 (mkNode 0 "Device") ;; _add_methods 0 (mkNode 0 "Device"))
     (before_build d)).2.

(** A running adapter over what the builders made, as the polling loop
    expects it, its trace read from here on. *)
Definition polling (d : Device) : OPCUAAdapter :=
  set__running true (set_trace [] (built d)).

(** ** What the builders are expected to expose *)

(** The value behind the variable node of [name], when the attribute is to
    be exposed: it exists, is not excluded, is not underscore-prefixed and
    is not callable. *)
Definition exposed (o : Options) (d : Device) (name : string) : option PyVal :=
  match d !! name with
  | Some a =>
      if bool_decide (name ∈ exclude_properties o) || startswith_underscore name
         || callable a
      then None
      else Some (attr_value a)
  | None => None
  end.

(** The tag the classifier gives a value ([classify_total]: it never
    raises). *)
Definition data_type_of (v : PyVal) : ua.VariantType :=
  match _get_ua_data_type v with
  | Ok t => t
  | Raise _ => ua.Variant
  end.

(** The variable node built for an exposed attribute. *)
Definition variable_node_for (o : Options) (name : string) (v : PyVal) : VariableNode :=
  let writeable := negb (bool_decide (name ∈ read_only_properties o)) in
  mkVariableNode v (data_type_of v) writeable
                 (if writeable then Some (write_callback name) else None).

(** The attributes [_add_methods] tries to register: nothing for a data
    member or an underscore-prefixed name, otherwise what
    [inspect.signature] gives for the callable. *)
Definition public_callable (d : Device) (name : string) : option (string + list string) :=
  match d !! name with
  | Some (Callable sig _) => if startswith_underscore name then None else Some sig
  | _ => None
  end.

(** The exception that ends the attempt to register a public callable:
    the one [inspect.signature] raises, or else the one the first argument
    descriptor raises. *)
Definition registration_failure (sig : string + list string) : Exn :=
  match sig with
  | inl msg => ValueError msg
  | inr _ => AttributeError "Variant"
  end.

(** The warning logged when registering [name] fails with [e]. *)
Definition registration_warning (name : string) (e : Exn) : Event :=
  LogWarning ("Failed to add method " +:+ name +:+ ": " +:+ str_of_exn e).

(** The content of a dictionary filled by a loop over [visited] that
    stores [ins name] under every name for which it is defined. *)
Definition after_visit {V : Type} (ins : string -> option V) (visited : list string)
    (m0 : gmap string V) (name : string) : option V :=
  match ins name with
  | Some v => if bool_decide (name ∈ visited) then Some v else m0 !! name
  | None => m0 !! name
  end.

(** The instance while [_add_properties] loops, relative to the instance
    [s0] and the server [srv0] it started from: every dictionary holds what
    the names visited so far put there, and nothing else has changed. *)
Definition properties_visited (idx : nat) (d : Device) (s0 : OPCUAAdapter) (srv0 : Server)
    (visited : list string) (s : OPCUAAdapter) : Prop :=
  let o := _options s0 in
  interface s = Some d /\
  _options s = o /\
  _running s = _running s0 /\
  _update_thread s = _update_thread s0 /\
  _stop_event s = _stop_event s0 /\
  cells s = cells s0 /\
  trace s = trace s0 /\
  (forall name, _nodes s !! name =
     after_visit (fun p => (fun _ => mkNode idx p) <$> exposed o d p) visited
                 (_nodes s0) name) /\
  (forall name, _property_values s !! name =
     after_visit (exposed o d) visited (_property_values s0) name) /\
  exists srv, _server s = Some srv /\
    srv_methods srv = srv_methods srv0 /\
    srv_started srv = srv_started srv0 /\
    srv_security_policy srv = srv_security_policy srv0 /\
    forall name, srv_variables srv !! name =
      after_visit (fun p => variable_node_for o p <$> exposed o d p) visited
                  (srv_variables srv0) name.

(** The warning logged for a name, if any. *)
Definition warning_for (d : Device) (name : string) : option Event :=
  (fun sig => registration_warning name (registration_failure sig))
    <$> public_callable d name.

(** The instance while a new activation of [_add_methods] loops, relative
    to the instance [s0] and the server [srv0] it started from: the
    activation's [method_name] holds the name visited last, the trace has
    the warnings of the names visited so far, and nothing else has
    changed. *)
Definition methods_visited (d : Device) (s0 : OPCUAAdapter) (srv0 : Server)
    (visited : list string) (s : OPCUAAdapter) : Prop :=
  interface s = Some d /\
  _options s = _options s0 /\
  _running s = _running s0 /\
  _update_thread s = _update_thread s0 /\
  _stop_event s = _stop_event s0 /\
  _nodes s = _nodes s0 /\
  _property_values s = _property_values s0 /\
  cells s = cells s0 ++ [last visited] /\
  trace s = trace s0 ++ omap (warning_for d) visited /\
  _server s = Some srv0.

(** ** What a polling pass may record *)

(** The events the [for] loop of the polling pass can add to the trace. *)
Definition is_update_event (ev : Event) : bool :=
  match ev with
  | SetValue _ _ | LogWarning _ => true
  | _ => false
  end.

(** The instance while the [for] loop of a polling pass runs, relative to
    the instance [s0] at its start: only the cache, the server's values and
    the trace move, and the trace grows by update events. *)
Definition polled (s0 s : OPCUAAdapter) : Prop :=
  _options s = _options s0 /\
  interface s = interface s0 /\
  _running s = _running s0 /\
  _stop_event s = _stop_event s0 /\
  _nodes s = _nodes s0 /\
  exists updates, trace s = trace s0 ++ updates /\
                  Forall (fun ev => is_update_event ev = true) updates.

(** ** The cache and the node map *)

(** The node map and the value cache have the same keys. *)
Definition cache_tracks_nodes (s : OPCUAAdapter) : Prop :=
  dom (_nodes s) = dom (_property_values s).

(** A statement that leaves the node map and the value cache alone,
    whether it completes or raises. *)
Definition keeps_maps {A : Type} (m : M A) : Prop :=
  forall s, _nodes (m s).2 = _nodes s /\ _property_values (m s).2 = _property_values s.

(** A statement that keeps an invariant, whether it completes or raises. *)
Definition preserves {A : Type} (I : OPCUAAdapter -> Prop) (m : M A) : Prop :=
  forall s, I s -> I (m s).2.

(** [update_property] without the first operand of the test on line 361:
    for a property missing from the cache the subscript
    [self._property_values[property]] raises [KeyError]. *)
Definition update_property_no_fallback (rt : Runtime) (property : string) (node : Node)
    : M unit :=
  bound <- gets interface ;;
  match bound ≫= (fun d => d !! property) with
  | None => ret tt
  | Some a =>
      let current_value := attr_value a in
      cache <- gets _property_values ;;
      match cache !! property with
      | None => raise (KeyError property)
      | Some cached =>
          if py_ne rt cached current_value then
            try_except
              (node_set_value rt node current_value ;;
               modify (fun s =>
                 set__property_values (<[property := current_value]> (_property_values s)) s))
              (fun e =>
                 log_warning ("Failed to update node " +:+ property +:+ ": " +:+ str_of_exn e))
          else ret tt
      end
  end.

(** The polling pass over [update_property_no_fallback]. *)
Definition poll_cycle_no_fallback (rt : Runtime) : M unit :=
  with_device_lock
    (items <- gets (fun s => map_to_list (_nodes s)) ;;
     for_each items (fun item => update_property_no_fallback rt item.1 item.2) ;;
     interval <- options_of "_options" "update_interval" update_interval ;;
     emit (Wait interval)).

(** The instance while a polling pass loops over the items of the node
    map [nodes]: the node map is still [nodes] and the cache has its keys. *)
Definition cache_covers (nodes : gmap string Node) (s : OPCUAAdapter) : Prop :=
  _nodes s = nodes /\ dom nodes = dom (_property_values s).

(** What can happen to an adapter, one step at a time: a call of one of its
    methods or callbacks (whatever its outcome), or the simulation changing
    or rebinding the device. *)
Inductive adapter_step (rt : Runtime) : OPCUAAdapter -> OPCUAAdapter -> Prop :=
  | step_add_properties (idx : nat) (device_node : Node) (s : OPCUAAdapter) :
      adapter_step rt s (_add_properties idx device_node s).2
  | step_add_methods (idx : nat) (device_node : Node) (s : OPCUAAdapter) :
      adapter_step rt s (_add_methods idx device_node s).2
  | step_start_server (s : OPCUAAdapter) :
      adapter_step rt s (start_server rt s).2
  | step_stop_server (s : OPCUAAdapter) :
      adapter_step rt s (stop_server s).2
  | step_update_variables (fuel : nat) (s : OPCUAAdapter) :
      adapter_step rt s (_update_variables rt fuel s).2
  | step_write_callback (property : string) (val : PyVal) (s : OPCUAAdapter) :
      adapter_step rt s (run_write_callback property val s).2
  | step_invoke_method_node (name : string) (args : list PyVal) (s : OPCUAAdapter) :
      adapter_step rt s (invoke_method_node name args s).2
  | step_handle (cycle_delay : float) (s : OPCUAAdapter) :
      adapter_step rt s (handle cycle_delay s).2
  | step_device (device : option Device) (s : OPCUAAdapter) :
      adapter_step rt s (set_interface device s).

(** ** What a polling pass pushes *)

(** The value a polling pass started on [s] stores in the cache for a
    property: the device's current value, when the property is tracked,
    still on the device, found changed by the test on line 361, accepted
    by the engine, and a server is there to take it. *)
Definition pushed (rt : Runtime) (s : OPCUAAdapter) (property : string) : option PyVal :=
  match _nodes s !! property, interface s ≫= (fun d => d !! property) with
  | Some node, Some a =>
      if value_changed rt (_property_values s) property (attr_value a)
         && negb (is_bound (set_value_raises rt (node_name node) (attr_value a)))
         && is_bound (_server s)
      then Some (attr_value a)
      else None
  | _, _ => None
  end.

(** The instance while the [for] loop of a pass started on [s1] has gone
    through the items [visited]. *)
Definition pass_visited (rt : Runtime) (s1 : OPCUAAdapter)
    (visited : list (string * Node)) (s : OPCUAAdapter) : Prop :=
  interface s = interface s1 /\
  _nodes s = _nodes s1 /\
  _options s = _options s1 /\
  _running s = _running s1 /\
  _stop_event s = _stop_event s1 /\
  is_bound (_server s) = is_bound (_server s1) /\
  (forall name, _property_values s !! name =
     after_visit (pushed rt s1) visited.*1 (_property_values s1) name) /\
  (exists evs, trace s = trace s1 ++ evs) /\
  (forall property node a,
     (property, node) ∈ visited ->
     interface s1 ≫= (fun d => d !! property) = Some a ->
     value_changed rt (_property_values s1) property (attr_value a) = true ->
     SetValue (node_name node) (attr_value a) ∈ trace s /\
     forall e, set_value_raises rt (node_name node) (attr_value a) = Some e ->
       LogWarning ("Failed to update node " +:+ property +:+ ": " +:+ str_of_exn e)
       ∈ trace s).

(** The number of waits recorded in a trace. *)
Fixpoint waits (tr : list Event) : nat :=
  match tr with
  | [] => 0
  | Wait _ :: rest => S (waits rest)
  | _ :: rest => waits rest
  end.

(** * Properties *)

(** ** The type classifier *)

Lemma forallb_repeat_rows (A : Type) (outer : list A) (row : list bool) :
  forallb (fun b : bool => b) (flat_map (fun _ => row) outer) =
  match outer with
  | [] => true
  | _ :: _ => forallb (fun b : bool => b) row
  end.
Proof.
  induction outer as [|x outer IH]; [reflexivity|].
  cbn [flat_map]. rewrite forallb_app, IH.
  destruct outer; [apply andb_true_r | apply andb_diag].
Qed.

Lemma forallb_map_id (A : Type) (f : A -> bool) (l : list A) :
  forallb (fun b : bool => b) (map f l) = forallb f l.
Proof. induction l as [|x l IH]; cbn; [reflexivity | by rewrite IH]. Qed.

(** On a non-empty list the generator of line 285 tests that every element
    is a float; the [isinstance(x, int)] in it is never evaluated. *)
Lemma line_285_all_nonempty (x : PyVal) (l : list PyVal) :
  line_285_all (x :: l) = Ok (all_isinstance Cfloat (x :: l)).
Proof.
  unfold line_285_all, value_or_isinstance_x_int, all_isinstance.
  by rewrite forallb_repeat_rows, forallb_map_id.
Qed.

(** What the classifier returns on a list, in closed form. *)
Lemma classify_list (l : list PyVal) :
  _get_ua_data_type (VList l) =
  Ok (if all_isinstance Cbool l then ua.Boolean
      else if all_isinstance Cint l then ua.Int64
      else if all_isinstance Cfloat l then ua.Double
      else ua.Variant).
Proof.
  cbn. destruct l as [|x l]; [reflexivity|].
  destruct (all_isinstance Cbool (x :: l)); [reflexivity|].
  destruct (all_isinstance Cint (x :: l)); [reflexivity|].
  rewrite line_285_all_nonempty.
  by destruct (all_isinstance Cfloat (x :: l)).
Qed.

(** The classifier never raises. *)
Lemma classify_total (value : PyVal) : exists t, _get_ua_data_type value = Ok t.
Proof.
  destruct value; try (eexists; reflexivity).
  rewrite classify_list. eauto.
Qed.

Example classify_ints : _get_ua_data_type (VList [VInt 1; VInt 2; VInt 3]) = Ok ua.Int64.
Proof. reflexivity. Qed.

Example classify_bools : _get_ua_data_type (VList [VBool true; VBool false]) = Ok ua.Boolean.
Proof. reflexivity. Qed.

Example classify_strs : _get_ua_data_type (VList [VStr "a"; VStr "b"]) = Ok ua.Variant.
Proof. reflexivity. Qed.

Example classify_floats : _get_ua_data_type (VList [VFloat 1.5; VFloat 2.5]) = Ok ua.Double.
Proof. reflexivity. Qed.

(** C2 (the code departs from the claim): a list mixing an integer and a
    float, [[1, 2.5]], has every element numeric, yet the classifier returns
    the generic Variant tag for it and not Double.  Line 285 is parsed as
    two nested loops over [value] testing [isinstance(x, float)] only. *)
Theorem C2_mixed_numeric_list_is_variant :
  all_isinstance Cbool [VInt 1; VFloat 2.5] = false /\
  all_isinstance Cint [VInt 1; VFloat 2.5] = false /\
  forallb (fun x => isinstance x Cint || isinstance x Cfloat) [VInt 1; VFloat 2.5] = true /\
  _get_ua_data_type (VList [VInt 1; VFloat 2.5]) = Ok ua.Variant.
Proof. repeat split. Qed.

(** C6: every boolean value is classified Boolean and never Int64, although
    it passes the integral test too; with the two tests exchanged it would
    come out as Int64. *)
Theorem C6_boolean_checked_before_integral (b : bool) :
  isinstance (VBool b) Cint = true /\
  _get_ua_data_type (VBool b) = Ok ua.Boolean /\
  _get_ua_data_type (VBool b) <> Ok ua.Int64 /\
  classify_int_first (VBool b) = Ok ua.Int64.
Proof. repeat split; discriminate. Qed.

(** ** Running statements *)

Lemma bind_run {A B : Type} (m : M A) (k : A -> M B) (s : OPCUAAdapter) :
  bind m k s = match m s with
               | (Ok a, s') => k a s'
               | (Raise e, s') => (Raise e, s')
               end.
Proof. reflexivity. Qed.

Lemma bind_ok {A B : Type} (m : M A) (k : A -> M B) (s s' : OPCUAAdapter) (a : A) :
  m s = (Ok a, s') -> bind m k s = k a s'.
Proof. intros H. by rewrite bind_run, H. Qed.

Lemma bind_raise {A B : Type} (m : M A) (k : A -> M B) (s s' : OPCUAAdapter) (e : Exn) :
  m s = (Raise e, s') -> bind m k s = (Raise e, s').
Proof. intros H. by rewrite bind_run, H. Qed.

(** The correctly spelled lookups of the options succeed. *)
Lemma options_of_options {A : Type} (field : string) (proj : Options -> A)
    (s : OPCUAAdapter) :
  options_of "_options" field proj s = (Ok (proj (_options s)), s).
Proof. reflexivity. Qed.

(** No attribute [_option] exists on an instance. *)
Lemma options_of_option {A : Type} (field : string) (proj : Options -> A)
    (s : OPCUAAdapter) :
  options_of "_option" field proj s = (Raise (AttributeError "_option"), s).
Proof. reflexivity. Qed.

(** No attribute [_update_variables] exists on an instance. *)
Lemma self_getattr_update_variables (s : OPCUAAdapter) :
  self_getattr "_update_variables" s = (Raise (AttributeError "_update_variables"), s).
Proof. reflexivity. Qed.

Lemma security_specified_raises (s : OPCUAAdapter) :
  security_specified s = (Raise (AttributeError "_option"), s).
Proof. unfold security_specified. by rewrite bind_run, options_of_option. Qed.

(** ** Lifecycle *)

(** C1 (the code departs from the claim): whatever the configuration, a
    call of [start_server] on a stopped adapter raises [AttributeError] at
    the security test of line 109, which reads [self._option]; the server
    object is left without certificate, key or security policy and is never
    started.  So no configuration starts secured, and none completes
    unsecured. *)
Theorem C1_start_server_raises_at_security_test (rt : Runtime) (s : OPCUAAdapter) :
  _running s = false ->
  (start_server rt s).1 = Raise (AttributeError "_option") /\
  _running (start_server rt s).2 = false /\
  exists srv, _server (start_server rt s).2 = Some srv /\
              srv_certificate srv = None /\
              srv_private_key srv = None /\
              srv_security_policy srv = [] /\
              srv_started srv = false.
Proof.
  intros Hstopped. destruct s as [o dev srv0 running nodes th ev pv cs tr].
  cbn in Hstopped. subst running.
  repeat split; try reflexivity.
  eexists. repeat split; reflexivity.
Qed.

(** The claim's all-four-specified configuration, on the example device. *)
Lemma C1_witness_secured_configuration :
  (start_server example_runtime
     (__init__ (mkOptions 4840 "Lewis OPCUA Server" "urn:lewis:opcua"
                          0x1.999999999999ap-4 [] [] "SignAndEncrypt" "Basic256Sha256"
                          (Some "cert.der") (Some "key.pem"))
               (Some example_device))).1
  = Raise (AttributeError "_option").
Proof.
  apply (C1_start_server_raises_at_security_test example_runtime). reflexivity.
Defined.

(** C9: [start_server] on a running adapter and [stop_server] on a stopped
    one return at once and leave the instance, the engine and the trace as
    they were; a new adapter is stopped. *)
Theorem C9_start_when_running_and_stop_when_stopped_do_nothing (rt : Runtime) :
  (forall s, _running s = true -> start_server rt s = (Ok tt, s)) /\
  (forall s, _running s = false -> stop_server s = (Ok tt, s)) /\
  (forall options device, stop_server (__init__ options device)
                          = (Ok tt, __init__ options device)).
Proof.
  split; [|split].
  - intros s H. unfold start_server. rewrite bind_run. unfold gets. by rewrite H.
  - intros s H. unfold stop_server. rewrite bind_run. unfold gets. by rewrite H.
  - reflexivity.
Qed.

Lemma C9_witness_running_and_new :
  start_server example_runtime (polling example_device)
    = (Ok tt, polling example_device) /\
  stop_server (fresh example_device) = (Ok tt, fresh example_device).
Proof.
  split.
  - apply (proj1 (C9_start_when_running_and_stop_when_stopped_do_nothing example_runtime)).
    reflexivity.
  - apply (proj1 (proj2 (C9_start_when_running_and_stop_when_stopped_do_nothing
                           example_runtime))).
    reflexivity.
Defined.

(** [stop_server] always completes and leaves the adapter stopped; called on
    a running adapter it empties the node map and the cache. *)
Lemma stop_server_stops (s : OPCUAAdapter) :
  (stop_server s).1 = Ok tt /\
  _running (stop_server s).2 = false /\
  (_running s = true ->
   _nodes (stop_server s).2 = ∅ /\ _property_values (stop_server s).2 = ∅ /\
   _server (stop_server s).2 = None /\ _update_thread (stop_server s).2 = None).
Proof.
  destruct s as [o dev srv running nodes th ev pv cs tr].
  destruct running; [|by repeat split].
  destruct th as [t|], srv as [sv|]; by repeat split.
Qed.

(** C8 (the code departs from the claim): [stop_server] leaves the adapter
    stopped and, when it was running, the node map and the cache empty.
    But on any device, start, stop and start again leave the node map and
    the cache empty and the adapter stopped, and the second start raises as
    the first did: nothing is rebuilt from the device, whose attributes
    stay unexposed (here [temperature] of the example device). *)
Theorem C8_restart_rebuilds_nothing (rt : Runtime) (d : Device) :
  (forall s, _running (stop_server s).2 = false /\
             (_running s = true ->
              _nodes (stop_server s).2 = ∅ /\ _property_values (stop_server s).2 = ∅)) /\
  (start_server rt (stop_server (start_server rt (fresh d)).2).2).1
    = Raise (AttributeError "_option") /\
  _nodes (start_server rt (stop_server (start_server rt (fresh d)).2).2).2 = ∅ /\
  _property_values (start_server rt (stop_server (start_server rt (fresh d)).2).2).2 = ∅ /\
  _running (start_server rt (stop_server (start_server rt (fresh d)).2).2).2 = false /\
  is_Some (example_device !! "temperature") /\
  _nodes (start_server example_runtime
            (stop_server (start_server example_runtime (fresh example_device)).2).2).2
    !! "temperature" = None.
Proof.
  split.
  - intros s. destruct (stop_server_stops s) as (_ & Hstopped & Hcleared).
    split; [done|]. intros Hrunning. by destruct (Hcleared Hrunning) as (? & ? & _).
  - repeat split. by eexists.
Qed.

(** ** Reflection on the device *)

Lemma elem_of_dir (d : Device) (name : string) : name ∈ dir d <-> is_Some (d !! name).
Proof.
  unfold dir. rewrite merge_sort_Permutation, elem_of_elements. apply elem_of_dom.
Qed.

Lemma NoDup_dir (d : Device) : NoDup (dir d).
Proof. unfold dir. rewrite merge_sort_Permutation. apply NoDup_elements. Qed.

(** ** Loops *)

(** A loop whose body completes and carries an invariant indexed by the
    items already visited completes too. *)
Lemma for_each_invariant {A : Type} (P : list A -> OPCUAAdapter -> Prop)
    (body : A -> M unit) (xs : list A) :
  (forall visited x s, x ∈ xs -> P visited s ->
     exists s', body x s = (Ok tt, s') /\ P (visited ++ [x]) s') ->
  forall s, P [] s -> exists s', for_each xs body s = (Ok tt, s') /\ P xs s'.
Proof.
  intros Hbody.
  cut (forall rest visited s, (forall x, x ∈ rest -> x ∈ xs) -> P visited s ->
         exists s', for_each rest body s = (Ok tt, s') /\ P (visited ++ rest) s').
  { intros H s Hs. by apply (H xs [] s). }
  induction rest as [|x rest IH]; intros visited s Hsub Hs.
  - exists s. by rewrite app_nil_r.
  - destruct (Hbody visited x s) as (s1 & Hx & Hs1); [apply Hsub; left | done |].
    destruct (IH (visited ++ [x]) s1) as (s2 & Hrest & Hs2);
      [intros y Hy; apply Hsub; by right | done |].
    exists s2. split.
    + cbn [for_each]. by rewrite (bind_ok _ _ _ _ _ Hx).
    + by rewrite <- app_assoc in Hs2.
Qed.

(** A loop keeps what each pass of its body keeps, whether the passes
    complete or raise. *)
Lemma for_each_preserves {A : Type} (I : OPCUAAdapter -> Prop)
    (body : A -> M unit) (xs : list A) :
  (forall x s, I s -> I (body x s).2) ->
  forall s, I s -> I (for_each xs body s).2.
Proof.
  intros Hbody. induction xs as [|x xs IH]; intros s Hs; [done|].
  cbn [for_each]. rewrite bind_run.
  specialize (Hbody x s Hs). destruct (body x s) as [[[]|e] s1]; cbn in *; auto.
Qed.

Section AfterVisit.

Context {V : Type} (ins : string -> option V) (m0 : gmap string V).

Lemma after_visit_nil (name : string) : m0 !! name = after_visit ins [] m0 name.
Proof. unfold after_visit. by destruct (ins name). Qed.

Lemma after_visit_insert (visited : list string) (m : gmap string V) (x : string) (v : V) :
  ins x = Some v ->
  (forall name, m !! name = after_visit ins visited m0 name) ->
  forall name, <[x := v]> m !! name = after_visit ins (visited ++ [x]) m0 name.
Proof.
  intros Hx Hm name. unfold after_visit. destruct (decide (x = name)) as [->|Hne].
  - rewrite lookup_insert_eq, Hx. rewrite bool_decide_eq_true_2; [done|].
    apply elem_of_app. right. by left.
  - rewrite lookup_insert_ne, Hm by done. unfold after_visit.
    destruct (ins name); [|done].
    assert (bool_decide (name ∈ visited ++ [x]) = bool_decide (name ∈ visited)) as ->;
      [|done].
    apply bool_decide_ext. rewrite elem_of_app, list_elem_of_singleton. naive_solver.
Qed.

Lemma after_visit_skip (visited : list string) (m : gmap string V) (x : string) :
  ins x = None ->
  (forall name, m !! name = after_visit ins visited m0 name) ->
  forall name, m !! name = after_visit ins (visited ++ [x]) m0 name.
Proof.
  intros Hx Hm name. rewrite Hm. unfold after_visit.
  destruct (ins name) eqn:Hname; [|done].
  assert (bool_decide (name ∈ visited ++ [x]) = bool_decide (name ∈ visited)) as ->;
    [|done].
  apply bool_decide_ext. rewrite elem_of_app, list_elem_of_singleton.
  split; [|by left]. intros [?| ->]; [done | congruence].
Qed.

Lemma after_visit_all (visited : list string) (name : string) :
  (forall v, ins name = Some v -> name ∈ visited) ->
  after_visit ins visited m0 name =
  match ins name with
  | Some v => Some v
  | None => m0 !! name
  end.
Proof.
  intros H. unfold after_visit. destruct (ins name) as [v|]; [|done].
  by rewrite bool_decide_eq_true_2 by eauto.
Qed.

End AfterVisit.

Lemma getattr_interface_ok (s : OPCUAAdapter) (d : Device) (name : string) (a : Attr) :
  interface s = Some d -> d !! name = Some a -> getattr_interface name s = (Ok a, s).
Proof. intros Hd Ha. unfold getattr_interface. rewrite Hd. cbn. by rewrite Ha. Qed.

Lemma server_update_ok (f : Server -> Server) (s : OPCUAAdapter) (srv : Server) :
  _server s = Some srv -> server_update f s = (Ok tt, set__server (Some (f srv)) s).
Proof. intros H. unfold server_update. by rewrite H. Qed.

Lemma exposed_Some (o : Options) (d : Device) (name : string) (v : PyVal) :
  exposed o d name = Some v <->
  exists a, d !! name = Some a /\ v = attr_value a /\
            (name ∉ exclude_properties o) /\
            startswith_underscore name = false /\
            callable a = false.
Proof.
  unfold exposed. split.
  - destruct (d !! name) as [a|]; [|done].
    case_bool_decide; [done|].
    destruct (startswith_underscore name); [done|].
    destruct (callable a) eqn:Hcall; [done|]. cbn. intros [= <-]. exists a. repeat split; auto.
  - intros (a & -> & -> & Hex & -> & ->). by rewrite bool_decide_eq_false_2.
Qed.

(** ** The property builder *)

(** One pass of the loop of [_add_properties]. *)
Lemma add_properties_pass (idx : nat) (device_node : Node) (d : Device)
    (s0 : OPCUAAdapter) (srv0 : Server) (visited : list string) (property : string)
    (s : OPCUAAdapter) :
  property ∈ dir d ->
  properties_visited idx d s0 srv0 visited s ->
  exists s',
    (excluded <- options_of "_options" "exclude_properties" exclude_properties ;;
     if bool_decide (property ∈ excluded) then ret tt
     else if startswith_underscore property then ret tt
     else
       a <- getattr_interface property ;;
       if callable a then ret tt
       else
         a' <- getattr_interface property ;;
         let value := attr_value a' in
         read_only <- options_of "_options" "read_only_properties" read_only_properties ;;
         let writeable := negb (bool_decide (property ∈ read_only)) in
         data_type <- lift (_get_ua_data_type value) ;;
         var <- add_variable idx property value data_type ;;
         set_writeable var writeable ;;
         modify (fun s => set__nodes (<[property := var]> (_nodes s)) s) ;;
         modify (fun s => set__property_values (<[property := value]> (_property_values s)) s) ;;
         if writeable
         then assign_set_value_callback var (write_callback property)
         else ret tt) s = (Ok tt, s') /\
    properties_visited idx d s0 srv0 (visited ++ [property]) s'.
Proof.
  intros Hin (Hd & Ho & Hrun & Hth & Hev & Hcells & Htr & Hnodes & Hpv
              & srv & Hsrv & Hm & Hst & Hsec & Hvars).
  apply elem_of_dir in Hin as [a Ha].
  rewrite bind_run, options_of_options. cbv beta iota. rewrite Ho.
  destruct (exposed (_options s0) d property) as [v|] eqn:Hexp.
  - (* the attribute is exposed *)
    pose proof Hexp as Hexp'.
    apply exposed_Some in Hexp' as (a' & Ha' & -> & Hnex & Hund & Hcall).
    assert (a' = a) as -> by congruence.
    rewrite bool_decide_eq_false_2 by done. rewrite Hund.
    rewrite (bind_ok _ _ _ _ _ (getattr_interface_ok _ _ _ _ Hd Ha)). rewrite Hcall.
    rewrite (bind_ok _ _ _ _ _ (getattr_interface_ok _ _ _ _ Hd Ha)). cbv zeta.
    rewrite bind_run, options_of_options. cbv beta iota. rewrite Ho.
    destruct (classify_total (attr_value a)) as [t Ht].
    assert (data_type_of (attr_value a) = t) as Hdt by (unfold data_type_of; by rewrite Ht).
    rewrite bind_run. unfold lift at 1. rewrite Ht. cbv beta iota.
    unfold add_variable, set_writeable, assign_set_value_callback.
    rewrite bind_run, bind_run, (server_update_ok _ _ _ Hsrv). cbv beta iota.
    unfold ret at 1. cbv beta iota.
    rewrite bind_run, (server_update_ok _ _ (set_variables _ srv)) by reflexivity.
    cbv beta iota. unfold modify, bind at 1 2. cbv beta iota.
    cbn [node_name set__server set__nodes set__property_values _server _nodes
         _property_values set_variables srv_variables _options interface].
    rewrite alter_insert_eq. cbn [vn_value vn_data_type vn_set_value_callback].
    assert (forall w cb,
      mkVariableNode (attr_value a) t w cb
      = mkVariableNode (attr_value a) (data_type_of (attr_value a)) w cb) as Hnode
      by (by rewrite Hdt).
    unfold properties_visited. cbv zeta.
    destruct (bool_decide (property ∈ read_only_properties (_options s0))) eqn:Hro;
      cbn [negb].
    + eexists. split; [reflexivity|].
      cbn.
      repeat split; try done.
      * apply after_visit_insert; [by rewrite Hexp | done].
      * by apply after_visit_insert.
      * eexists. split; [reflexivity|]. cbn. repeat split; try done.
        apply after_visit_insert; [|done].
        rewrite Hexp. cbn. unfold variable_node_for. by rewrite Hro, Hdt.
    + erewrite server_update_ok by reflexivity.
      eexists. split; [reflexivity|].
      cbn. rewrite alter_insert_eq.
      repeat split; try done.
      * apply after_visit_insert; [by rewrite Hexp | done].
      * by apply after_visit_insert.
      * eexists. split; [reflexivity|]. cbn. repeat split; try done.
        apply after_visit_insert; [|done].
        rewrite Hexp. cbn. unfold variable_node_for. by rewrite Hro, Hdt.
  - (* the attribute is skipped *)
    assert (properties_visited idx d s0 srv0 (visited ++ [property]) s) as Hskip.
    { unfold properties_visited. cbv zeta. repeat split; try done.
      - apply after_visit_skip; [by rewrite Hexp | done].
      - by apply after_visit_skip.
      - exists srv. repeat split; try done.
        apply after_visit_skip; [by rewrite Hexp | done]. }
    exists s. split; [|done].
    unfold exposed in Hexp. rewrite Ha in Hexp.
    case_bool_decide; [done|].
    destruct (startswith_underscore property); [done|].
    rewrite (bind_ok _ _ _ _ _ (getattr_interface_ok _ _ _ _ Hd Ha)).
    by destruct (callable a).
Qed.

Lemma add_properties_spec (idx : nat) (device_node : Node) (d : Device)
    (s0 : OPCUAAdapter) (srv0 : Server) :
  interface s0 = Some d -> _server s0 = Some srv0 ->
  exists s', _add_properties idx device_node s0 = (Ok tt, s') /\
             properties_visited idx d s0 srv0 (dir d) s'.
Proof.
  intros Hd Hsrv. unfold _add_properties. rewrite bind_run.
  unfold dir_interface, gets. rewrite Hd. cbv beta iota.
  apply (for_each_invariant (properties_visited idx d s0 srv0)).
  - intros visited x s Hx Hs. by apply add_properties_pass.
  - unfold properties_visited. cbv zeta. repeat split; try done.
    + intros name. apply after_visit_nil.
    + intros name. apply after_visit_nil.
    + exists srv0. repeat split; try done. intros name. apply after_visit_nil.
Qed.

(** ** The method builder *)

Lemma insert_last_cell (l : list (option string)) (v w : option string) :
  <[length l := w]> (l ++ [v]) = l ++ [w].
Proof.
  replace (length l) with (length l + 0)%nat by lia. by rewrite insert_app_r.
Qed.

(** The loop over the parameters completes only when every parameter is
    [self]; it raises at the first other one and appends nothing. *)
Lemma inputs_of_parameters_run (params : list string) (inputs : list Argument)
    (s : OPCUAAdapter) :
  inputs_of_parameters params inputs s
  = (if forallb (fun param_name => bool_decide (param_name = "self")) params
     then Ok inputs
     else Raise (AttributeError "Variant"), s).
Proof.
  induction params as [|param_name rest IH]; [done|].
  cbn [inputs_of_parameters forallb]. by case_bool_decide.
Qed.

(** Lines 224-253, once the signature has been read: whatever the
    parameters, building the descriptors raises and [add_method] is not
    reached. *)
Lemma descriptors_raise (idx : nat) (method_name : string) (frame : nat)
    (params : list string) (s : OPCUAAdapter) :
  (inputs <- inputs_of_parameters params [] ;;
   result_argument <- variant_argument "Result" ;;
   let outputs := [result_argument] in
   add_method idx method_name (method_wrapper frame) inputs outputs ;;
   ret tt) s
  = (Raise (AttributeError "Variant"), s).
Proof.
  rewrite bind_run, inputs_of_parameters_run.
  by destruct (forallb _ params).
Qed.

(** One pass of the loop of [_add_methods]. *)
Lemma add_methods_pass (idx : nat) (d : Device) (s0 : OPCUAAdapter) (srv0 : Server)
    (visited : list string) (method_name : string) (s : OPCUAAdapter) :
  method_name ∈ dir d ->
  methods_visited d s0 srv0 visited s ->
  exists s',
    (assign_method_name (length (cells s0)) method_name ;;
     a <- getattr_interface method_name ;;
     if negb (callable a) then ret tt
     else if startswith_underscore method_name then ret tt
     else
       method <- getattr_interface method_name ;;
       try_except
         (params <- inspect_signature method ;;
          inputs <- inputs_of_parameters params [] ;;
          result_argument <- variant_argument "Result" ;;
          let outputs := [result_argument] in
          add_method idx method_name (method_wrapper (length (cells s0))) inputs outputs ;;
          ret tt)
         (fun e =>
            log_warning ("Failed to add method " +:+ method_name +:+ ": " +:+ str_of_exn e)))
      s = (Ok tt, s') /\
    methods_visited d s0 srv0 (visited ++ [method_name]) s'.
Proof.
  intros Hin (Hd & Ho & Hrun & Hth & Hev & Hnodes & Hpv & Hcells & Htr & Hsrv).
  apply elem_of_dir in Hin as [a Ha].
  rewrite bind_run. unfold assign_method_name, modify. cbv beta iota.
  rewrite Hcells, insert_last_cell.
  erewrite bind_ok by (eapply getattr_interface_ok; [exact Hd | exact Ha]).
  assert (getattr_interface method_name (set_cells (cells s0 ++ [Some method_name]) s)
          = (Ok a, set_cells (cells s0 ++ [Some method_name]) s)) as Hget
    by (by apply (getattr_interface_ok _ d)).
  unfold methods_visited. rewrite last_snoc, omap_app. cbn [omap].
  destruct a as [v|sig body]; cbn [callable negb].
  - (* a data member *)
    assert (public_callable d method_name = None) as Hpub
      by (unfold public_callable; by rewrite Ha).
    eexists. split; [reflexivity|]. cbn.
    unfold warning_for. rewrite Hpub. cbn. rewrite app_nil_r. by repeat split.
  - destruct (startswith_underscore method_name) eqn:Hund.
    + (* an underscore-prefixed callable *)
      assert (public_callable d method_name = None) as Hpub
        by (unfold public_callable; by rewrite Ha, Hund).
      eexists. split; [reflexivity|]. cbn.
      unfold warning_for. rewrite Hpub. cbn. rewrite app_nil_r. by repeat split.
    + (* a public callable: the attempt fails and is logged *)
      assert (public_callable d method_name = Some sig) as Hpub
        by (unfold public_callable; by rewrite Ha, Hund).
      rewrite (bind_ok _ _ _ _ _ Hget). unfold try_except.
      assert ((params <- inspect_signature (Callable sig body) ;;
               inputs <- inputs_of_parameters params [] ;;
               result_argument <- variant_argument "Result" ;;
               add_method idx method_name (method_wrapper (length (cells s0)))
                          inputs [result_argument] ;;
               ret tt) (set_cells (cells s0 ++ [Some method_name]) s)
              = (Raise (registration_failure sig),
                 set_cells (cells s0 ++ [Some method_name]) s)) as ->.
      { destruct sig as [msg|params]; cbn [inspect_signature registration_failure].
        - by apply bind_raise.
        - rewrite (bind_ok _ _ _ _ params) by reflexivity. apply descriptors_raise. }
      eexists. split; [reflexivity|]. cbn.
      unfold warning_for. rewrite Hpub. cbn.
      repeat split; try done. by rewrite Htr, <- app_assoc.
Qed.

Lemma add_methods_spec (idx : nat) (device_node : Node) (d : Device)
    (s0 : OPCUAAdapter) (srv0 : Server) :
  interface s0 = Some d -> _server s0 = Some srv0 ->
  exists s', _add_methods idx device_node s0 = (Ok tt, s') /\
             methods_visited d s0 srv0 (dir d) s'.
Proof.
  intros Hd Hsrv. unfold _add_methods. rewrite bind_run.
  unfold new_frame. cbv beta iota. rewrite bind_run.
  unfold dir_interface, gets. cbn [interface set_cells]. rewrite Hd. cbv beta iota.
  destruct (for_each_invariant (methods_visited d s0 srv0)
              (fun method_name =>
                 assign_method_name (length (cells s0)) method_name ;;
                 a <- getattr_interface method_name ;;
                 if negb (callable a) then ret tt
                 else if startswith_underscore method_name then ret tt
                 else
                   method <- getattr_interface method_name ;;
                   try_except
                     (params <- inspect_signature method ;;
                      inputs <- inputs_of_parameters params [] ;;
                      result_argument <- variant_argument "Result" ;;
                      let outputs := [result_argument] in
                      add_method idx method_name (method_wrapper (length (cells s0)))
                                 inputs outputs ;;
                      ret tt)
                     (fun e =>
                        log_warning ("Failed to add method " +:+ method_name +:+ ": "
                                     +:+ str_of_exn e)))
              (dir d)
              (fun visited x s Hx Hs => add_methods_pass idx d s0 srv0 visited x s Hx Hs)
              (set_cells (cells s0 ++ [None]) s0))
    as (s' & Hrun & Hs').
  - unfold methods_visited. cbn. rewrite app_nil_r. by repeat split.
  - exists s'. split; [exact Hrun | exact Hs'].
Qed.

Lemma public_callable_Some (d : Device) (name : string) (sig : string + list string) :
  public_callable d name = Some sig <->
  (exists body, d !! name = Some (Callable sig body)) /\ startswith_underscore name = false.
Proof.
  unfold public_callable. split.
  - destruct (d !! name) as [[v|sig' body]|]; try done.
    destruct (startswith_underscore name); [done|]. intros [= ->]. eauto.
  - intros [[body ->] ->]. done.
Qed.

(** C7 (the code departs from the claim): whatever the device,
    [_add_methods] completes and leaves the node map, the value cache and
    the server as they were, so a failure never aborts its caller and the
    properties built before stay.  But it registers no method at all.  A
    public callable whose signature cannot be read gets a warning that
    names it, as claimed; every other public callable fails as well, at
    the first argument descriptor, where [ua.ObjectIds.Variant] raises, and
    is logged and passed over in the same way.  The log grows by exactly
    these warnings, in the order of [dir]. *)
Theorem C7_no_method_is_registered_after_any_failure
    (idx : nat) (device_node : Node) (d : Device) (s : OPCUAAdapter) (srv : Server) :
  interface s = Some d ->
  _server s = Some srv ->
  exists s',
    _add_methods idx device_node s = (Ok tt, s') /\
    _server s' = Some srv /\
    _nodes s' = _nodes s /\
    _property_values s' = _property_values s /\
    trace s' = trace s ++ omap (warning_for d) (dir d) /\
    forall name sig body,
      d !! name = Some (Callable sig body) ->
      startswith_underscore name = false ->
      LogWarning ("Failed to add method " +:+ name +:+ ": " +:+
                  match sig with
                  | inl msg => msg
                  | inr _ => str_of_exn (AttributeError "Variant")
                  end) ∈ trace s'.
Proof.
  intros Hd Hsrv.
  destruct (add_methods_spec idx device_node d s srv Hd Hsrv)
    as (s' & Hrun & _ & _ & _ & _ & _ & Hnodes & Hpv & _ & Htr & Hsrv').
  exists s'. repeat split; try done.
  intros name sig body Ha Hund.
  assert (public_callable d name = Some sig) as Hpub
    by (apply public_callable_Some; eauto).
  assert (name ∈ dir d) as Hin by (apply elem_of_dir; eauto).
  rewrite Htr. apply elem_of_app. right.
  apply list_elem_of_omap. exists name. split; [done|].
  unfold warning_for. rewrite Hpub. by destruct sig.
Qed.

Lemma C7_witness_opaque_method :
  exists s',
    _add_methods 0 (mkNode 0 "Device") (before_build opaque_method_device) = (Ok tt, s') /\
    LogWarning "Failed to add method calibrate: no signature found" ∈ trace s' /\
    registration_warning "reset" (AttributeError "Variant") ∈ trace s' /\
    (_server s' ≫= fun srv => srv_methods srv !! "calibrate") = None /\
    (_server s' ≫= fun srv => srv_methods srv !! "reset") = None.
Proof.
  destruct (C7_no_method_is_registered_after_any_failure
              0 (mkNode 0 "Device") opaque_method_device
              (before_build opaque_method_device) new_Server eq_refl eq_refl)
    as (s' & Hrun & Hsrv' & _ & _ & _ & Hwarn).
  exists s'. split; [exact Hrun|].
  split; [exact (Hwarn "calibrate" _ _ eq_refl eq_refl)|].
  split; [exact (Hwarn "reset" _ _ eq_refl eq_refl)|].
  rewrite Hsrv'. split; reflexivity.
Defined.

(** ** The call wrapper *)

(** C4 (the code departs from the claim): [method_wrapper] does not hold
    the name it was made for.  When it is called it reads the variable
    [method_name] of the activation of [_add_methods] that made it, and
    calls the attribute that variable names then: under the device lock,
    with the arguments unchanged, a result other than [None] returned as a
    one-element list and [None] as the empty list.  The name a node is
    registered under plays no part in this: a node carrying the wrapper
    runs the same wrapper whatever its name. *)
Theorem C4_call_wrapper_reads_the_loop_variable
    (frame : nat) (current : string) (args : list PyVal) (s : OPCUAAdapter)
    (d : Device) (sig : string + list string)
    (body : (string -> option PyVal) -> list PyVal -> CallOutcome) :
  interface s = Some d ->
  cells s !! frame = Some (Some current) ->
  d !! current = Some (Callable sig body) ->
  run_method_wrapper frame args s
  = (match call_result (body (data_view d) args) with
     | Ok VNone => Ok []
     | Ok result => Ok [result]
     | Raise e => Raise e
     end,
     set_trace (trace s ++ [Acquire; Call current args; Release])
       (set_interface (Some (apply_writes (call_writes (body (data_view d) args)) d)) s)) /\
  forall name inputs outputs srv,
    _server s = Some srv ->
    srv_methods srv !! name = Some (mkMethodNode (method_wrapper frame) inputs outputs) ->
    invoke_method_node name args s = run_method_wrapper frame args s.
Proof.
  intros Hd Hcell Ha. split.
  - unfold run_method_wrapper, with_device_lock.
    rewrite bind_run. unfold read_method_name. cbn [cells set_trace]. rewrite Hcell.
    cbv beta iota.
    erewrite bind_ok by (by apply (getattr_interface_ok _ d)).
    rewrite bind_run. cbn [call_attr interface set_trace]. rewrite Hd. cbv beta iota.
    destruct (call_result (body (data_view d) args)) as [[]|e];
      cbn; by rewrite <- !app_assoc.
  - intros name inputs outputs srv Hsrv Hnode.
    unfold invoke_method_node. rewrite Hsrv. cbn. by rewrite Hnode.
Qed.

(** On the device with the methods [start], which returns [True], and
    [stop], which returns nothing, the loop of [_add_methods] leaves its
    variable at [stop]: the wrapper of that activation, which line 253
    would register for [start] as well, calls [stop] and returns the empty
    list. *)
Lemma C4_witness_two_method_device :
  cells (built two_method_device) = [Some "stop"] /\
  (run_method_wrapper 0 [] (built two_method_device)).1 = Ok [] /\
  trace (run_method_wrapper 0 [] (built two_method_device)).2
  = trace (built two_method_device) ++ [Acquire; Call "stop" []; Release].
Proof.
  split; [reflexivity|].
  rewrite (proj1 (C4_call_wrapper_reads_the_loop_variable
                    0 "stop" [] (built two_method_device) two_method_device
                    (inr []) (fun _ _ => mkOutcome (Ok VNone) [])
                    eq_refl eq_refl eq_refl)).
  split; reflexivity.
Defined.

(** ** Both builders *)





(** ** The polling loop *)

Lemma polled_refl (s : OPCUAAdapter) : polled s s.
Proof.
  unfold polled. repeat split; try done. exists []. by rewrite app_nil_r.
Qed.

Lemma polled_event (s0 s s' : OPCUAAdapter) (ev : Event) :
  polled s0 s ->
  _options s' = _options s -> interface s' = interface s ->
  _running s' = _running s -> _stop_event s' = _stop_event s ->
  _nodes s' = _nodes s ->
  trace s' = trace s ++ [ev] -> is_update_event ev = true ->
  polled s0 s'.
Proof.
  intros (Ho & Hd & Hr & He & Hn & evs & Htr & Hall) Ho' Hd' Hr' He' Hn' Htr' Hev.
  unfold polled. repeat split; try congruence.
  exists (evs ++ [ev]). split.
  - by rewrite Htr', Htr, <- app_assoc.
  - apply Forall_app. split; [done|]. by constructor.
Qed.

Lemma polled_silent (s0 s s' : OPCUAAdapter) :
  polled s0 s ->
  _options s' = _options s -> interface s' = interface s ->
  _running s' = _running s -> _stop_event s' = _stop_event s ->
  _nodes s' = _nodes s ->
  trace s' = trace s ->
  polled s0 s'.
Proof.
  intros (Ho & Hd & Hr & He & Hn & evs & Htr & Hall) Ho' Hd' Hr' He' Hn' Htr'.
  unfold polled. repeat split; try congruence.
  exists evs. split; [congruence | done].
Qed.

(** One item of the polling pass always completes. *)
Lemma update_property_polled (rt : Runtime) (property : string) (node : Node)
    (s0 s : OPCUAAdapter) :
  polled s0 s ->
  exists s', update_property rt property node s = (Ok tt, s') /\ polled s0 s'.
Proof.
  intros Hs. unfold update_property. rewrite bind_run. unfold gets at 1. cbv beta iota.
  destruct (interface s ≫= fun d => d !! property) as [a|]; [|by exists s].
  rewrite bind_run. unfold gets at 1. cbv beta iota.
  destruct (value_changed rt (_property_values s) property (attr_value a)); [|by exists s].
  unfold try_except, node_set_value. rewrite bind_run, bind_run.
  unfold emit at 1, modify at 1. cbv beta iota.
  set (s1 := set_trace (trace s ++ [SetValue (node_name node) (attr_value a)]) s).
  assert (polled s0 s1) as Hs1 by (eapply polled_event; [exact Hs | done..]).
  destruct (set_value_raises rt (node_name node) (attr_value a)) as [e|].
  - (* the engine rejects the value *)
    unfold raise at 1. cbv beta iota. eexists. split; [reflexivity|].
    eapply polled_event; [exact Hs1 | done..].
  - unfold server_update. destruct (_server s1) as [srv|] eqn:Hsrv.
    + eexists. split; [reflexivity|]. eapply polled_silent; [exact Hs1 | done..].
    + eexists. split; [reflexivity|]. eapply polled_event; [exact Hs1 | done..].
Qed.

Lemma keep_polling_run (s : OPCUAAdapter) :
  keep_polling s =
  (Ok (negb (_stop_event s) && _running s && is_bound (interface s)),
   set_trace (trace s ++ [IsSet (_stop_event s)]) s).
Proof.
  unfold keep_polling. rewrite bind_run. unfold gets at 1. cbv beta iota.
  rewrite bind_run. unfold emit, modify. cbv beta iota.
  destruct (_stop_event s); [reflexivity|].
  rewrite bind_run. unfold gets at 1. cbv beta iota. cbn [_running set_trace].
  destruct (_running s); reflexivity.
Qed.

(** C5 (the code departs from the claim): every polling pass completes and
    records, in this order, the lock being taken, the updates of the pass,
    the wait for [update_interval], and only then the lock being released:
    the wait of line 368 runs with the device lock held.  The loop reads
    the stop signal once before each pass and leaves when it is set.  On
    the example device one turn of the loop checks the stop signal, takes
    the lock, waits 0.1 s and releases the lock. *)
Theorem C5_wait_runs_with_the_lock_held (rt : Runtime) (s : OPCUAAdapter) :
  (exists s' updates,
     poll_cycle rt s = (Ok tt, s') /\
     Forall (fun ev => is_update_event ev = true) updates /\
     trace s' = trace s ++ [Acquire] ++ updates
                ++ [Wait (update_interval (_options s)); Release]) /\
  trace (keep_polling s).2 = trace s ++ [IsSet (_stop_event s)] /\
  (forall fuel, _stop_event s = true ->
     _update_variables rt (S fuel) s
     = (Ok true, set_trace (trace s ++ [IsSet true]) s)) /\
  trace (_update_variables example_runtime 1 (polling example_device)).2
    = [IsSet false; Acquire; Wait 0x1.999999999999ap-4; Release].
Proof.
  split; [|split; [|split]].
  - unfold poll_cycle, with_device_lock.
    set (s1 := set_trace (trace s ++ [Acquire]) s).
    rewrite bind_run. unfold gets at 1. cbv beta iota.
    destruct (for_each_invariant (fun _ => polled s1)
                (fun item => update_property rt item.1 item.2)
                (map_to_list (_nodes s1))
                (fun _ x s2 _ Hs2 => update_property_polled rt x.1 x.2 s1 s2 Hs2)
                s1 (polled_refl s1))
      as (s2 & Hrun & Ho & _ & _ & _ & _ & updates & Htr & Hall).
    rewrite (bind_ok _ _ _ _ _ Hrun).
    rewrite bind_run, options_of_options. cbv beta iota.
    eexists _, updates. split; [reflexivity|]. split; [done|].
    cbn. rewrite Htr, Ho. cbn. by rewrite <- !app_assoc.
  - by rewrite keep_polling_run.
  - intros fuel Hstop. cbn [_update_variables].
    rewrite bind_run, keep_polling_run, Hstop. reflexivity.
  - reflexivity.
Qed.

(** ** Statements that leave the dictionaries alone *)

Lemma keeps_maps_ret {A : Type} (a : A) : keeps_maps (ret a).
Proof. by intros s. Qed.

Lemma keeps_maps_raise {A : Type} (e : Exn) : keeps_maps (raise (A := A) e).
Proof. by intros s. Qed.

Lemma keeps_maps_gets {A : Type} (f : OPCUAAdapter -> A) : keeps_maps (gets f).
Proof. by intros s. Qed.

Lemma keeps_maps_lift {A : Type} (r : Result A) : keeps_maps (lift r).
Proof. by intros s. Qed.

Lemma keeps_maps_bind {A B : Type} (m : M A) (k : A -> M B) :
  keeps_maps m -> (forall a, keeps_maps (k a)) -> keeps_maps (bind m k).
Proof.
  intros Hm Hk s. rewrite bind_run. specialize (Hm s).
  destruct (m s) as [[a|e] s1]; cbn in *; [|done].
  destruct (Hk a s1) as [-> ->]. done.
Qed.

Lemma keeps_maps_modify (f : OPCUAAdapter -> OPCUAAdapter) :
  (forall s, _nodes (f s) = _nodes s /\ _property_values (f s) = _property_values s) ->
  keeps_maps (modify f).
Proof. intros H s. apply H. Qed.

Lemma keeps_maps_emit (ev : Event) : keeps_maps (emit ev).
Proof. by intros s. Qed.

Lemma keeps_maps_try_except {A : Type} (body : M A) (handler : Exn -> M A) :
  keeps_maps body -> (forall e, keeps_maps (handler e)) -> keeps_maps (try_except body handler).
Proof.
  intros Hb Hh s. unfold try_except. specialize (Hb s).
  destruct (body s) as [[a|e] s1]; cbn in *; [done|].
  destruct (Hh e s1) as [-> ->]. done.
Qed.

Lemma keeps_maps_with_device_lock {A : Type} (body : M A) :
  keeps_maps body -> keeps_maps (with_device_lock body).
Proof.
  intros Hb s. unfold with_device_lock.
  specialize (Hb (set_trace (trace s ++ [Acquire]) s)).
  destruct (body _) as [r s1]. cbn in *. done.
Qed.

Lemma keeps_maps_for_each {A : Type} (xs : list A) (body : A -> M unit) :
  (forall x, keeps_maps (body x)) -> keeps_maps (for_each xs body).
Proof.
  intros Hb. induction xs as [|x xs IH]; [by intros s|].
  cbn [for_each]. apply keeps_maps_bind; [apply Hb | by intros _].
Qed.

Lemma keeps_maps_self_getattr (name : string) : keeps_maps (self_getattr name).
Proof. intros s. unfold self_getattr. by repeat case_bool_decide. Qed.

Lemma keeps_maps_options_of {A : Type} (name field : string) (proj : Options -> A) :
  keeps_maps (options_of name field proj).
Proof.
  apply keeps_maps_bind; [apply keeps_maps_self_getattr|].
  intros [o|]; [apply keeps_maps_ret | apply keeps_maps_raise].
Qed.

Lemma keeps_maps_getattr_interface (name : string) : keeps_maps (getattr_interface name).
Proof. intros s. unfold getattr_interface. by destruct (interface s ≫= _). Qed.

Lemma keeps_maps_server_update (f : Server -> Server) : keeps_maps (server_update f).
Proof. intros s. unfold server_update. by destruct (_server s). Qed.

Lemma keeps_maps_register_namespace (uri_ : string) : keeps_maps (register_namespace uri_).
Proof. intros s. unfold register_namespace. by destruct (_server s). Qed.

Create HintDb keeps discriminated.

#[local] Hint Resolve keeps_maps_ret keeps_maps_raise keeps_maps_gets keeps_maps_lift
  keeps_maps_emit keeps_maps_self_getattr keeps_maps_options_of
  keeps_maps_getattr_interface keeps_maps_server_update keeps_maps_register_namespace
  : keeps.

(** Splits a statement along its binds, branches and handlers, and closes
    the leaves with the lemmas above. *)
Ltac keeps :=
  first
    [ solve [auto with keeps]
    | apply keeps_maps_bind; [keeps | intros ?; keeps]
    | apply keeps_maps_try_except; [keeps | intros ?; keeps]
    | apply keeps_maps_with_device_lock; keeps
    | apply keeps_maps_for_each; intros ?; keeps
    | apply keeps_maps_modify; intros ?; by split
    | match goal with
      | |- keeps_maps (if ?b then _ else _) => destruct b; keeps
      | |- keeps_maps (match ?x with _ => _ end) => destruct x; keeps
      end
    | idtac ].

Lemma keeps_maps_inputs_of_parameters (params : list string) (inputs : list Argument) :
  keeps_maps (inputs_of_parameters params inputs).
Proof.
  revert inputs. induction params as [|param_name rest IH]; intros inputs;
    cbn [inputs_of_parameters]; [keeps|].
  case_bool_decide; [apply IH|]. unfold variant_argument. keeps.
Qed.

Lemma keeps_maps_add_methods (idx : nat) (device_node : Node) :
  keeps_maps (_add_methods idx device_node).
Proof.
  unfold _add_methods, new_frame, dir_interface, assign_method_name, inspect_signature,
    variant_argument, add_method, log_warning.
  apply keeps_maps_bind; [by intros s | intros frame]. keeps.
  apply keeps_maps_inputs_of_parameters.
Qed.

Lemma keeps_maps_run_write_callback (property_name : string) (val : PyVal) :
  keeps_maps (run_write_callback property_name val).
Proof.
  unfold run_write_callback. keeps. intros s. by destruct (interface s).
Qed.

Lemma keeps_maps_call_attr (name : string) (callee : Attr) (args : list PyVal) :
  keeps_maps (call_attr name callee args).
Proof.
  destruct callee as [v|sig body]; cbn [call_attr]; [keeps|].
  intros s. by destruct (interface s).
Qed.

Lemma keeps_maps_invoke_method_node (name : string) (args : list PyVal) :
  keeps_maps (invoke_method_node name args).
Proof.
  intros s. unfold invoke_method_node.
  destruct (_server s ≫= _) as [[[p|frame] ? ?]|]; [done| |done].
  revert s. unfold run_method_wrapper, read_method_name. keeps.
  - intros s. by destruct (cells s !! frame) as [[?|]|].
  - apply keeps_maps_call_attr.
Qed.

Lemma keeps_maps_handle (cycle_delay : float) : keeps_maps (handle cycle_delay).
Proof. unfold handle. keeps. Qed.

(** ** The cache follows the node map *)

Lemma tracks_keeps {A : Type} (m : M A) :
  keeps_maps m -> preserves cache_tracks_nodes m.
Proof.
  intros Hm s Hs. unfold cache_tracks_nodes in *. by destruct (Hm s) as [-> ->].
Qed.

Lemma preserves_bind {A B : Type} (I : OPCUAAdapter -> Prop) (m : M A) (k : A -> M B) :
  preserves I m -> (forall a, preserves I (k a)) -> preserves I (bind m k).
Proof.
  intros Hm Hk s Hs. rewrite bind_run. specialize (Hm s Hs).
  destruct (m s) as [[a|e] s1]; cbn in *; [by apply Hk | done].
Qed.

Lemma tracks_bind_keeps {A B : Type} (m : M A) (k : A -> M B) :
  keeps_maps m -> (forall a, preserves cache_tracks_nodes (k a)) ->
  preserves cache_tracks_nodes (bind m k).
Proof. intros Hm Hk. apply preserves_bind; [by apply tracks_keeps | done]. Qed.

(** Two assignments in a row count as one step. *)
Lemma preserves_two_modifies {A : Type} (I : OPCUAAdapter -> Prop)
    (f1 f2 : OPCUAAdapter -> OPCUAAdapter) (rest : M A) :
  (forall s, I s -> I (f2 (f1 s))) ->
  preserves I rest ->
  preserves I (modify f1 ;; modify f2 ;; rest).
Proof. intros Hf Hrest s Hs. apply (Hrest (f2 (f1 s))). by apply Hf. Qed.

Lemma for_each_preserves_in {A : Type} (I : OPCUAAdapter -> Prop)
    (body : A -> M unit) (xs : list A) :
  (forall x s, x ∈ xs -> I s -> I (body x s).2) ->
  forall s, I s -> I (for_each xs body s).2.
Proof.
  induction xs as [|x xs IH]; intros Hbody s Hs; [done|].
  cbn [for_each]. rewrite bind_run.
  pose proof (Hbody x s (list_elem_of_here _ _) Hs) as Hx.
  destruct (body x s) as [[[]|e] s1]; cbn in *; [|done].
  apply IH; [|done]. intros y s' Hy. apply Hbody. by right.
Qed.

Lemma tracks_add_properties (idx : nat) (device_node : Node) :
  preserves cache_tracks_nodes (_add_properties idx device_node).
Proof.
  unfold _add_properties. apply tracks_bind_keeps; [unfold dir_interface; keeps|].
  intros names s Hs. apply for_each_preserves; [|done]. clear s Hs.
  intros property. change (preserves cache_tracks_nodes
    (excluded <- options_of "_options" "exclude_properties" exclude_properties ;;
     if bool_decide (property ∈ excluded) then ret tt
     else if startswith_underscore property then ret tt
     else
       a <- getattr_interface property ;;
       if callable a then ret tt
       else
         a' <- getattr_interface property ;;
         let value := attr_value a' in
         read_only <- options_of "_options" "read_only_properties" read_only_properties ;;
         let writeable := negb (bool_decide (property ∈ read_only)) in
         data_type <- lift (_get_ua_data_type value) ;;
         var <- add_variable idx property value data_type ;;
         set_writeable var writeable ;;
         modify (fun s => set__nodes (<[property := var]> (_nodes s)) s) ;;
         modify (fun s => set__property_values (<[property := value]> (_property_values s)) s) ;;
         if writeable
         then assign_set_value_callback var (write_callback property)
         else ret tt)).
  apply tracks_bind_keeps; [keeps|]. intros excluded.
  case_bool_decide; [apply tracks_keeps; keeps|].
  destruct (startswith_underscore property); [apply tracks_keeps; keeps|].
  apply tracks_bind_keeps; [keeps|]. intros a.
  destruct (callable a); [apply tracks_keeps; keeps|].
  apply tracks_bind_keeps; [keeps|]. intros a'. cbv zeta.
  apply tracks_bind_keeps; [keeps|]. intros read_only.
  apply tracks_bind_keeps; [keeps|]. intros data_type.
  apply tracks_bind_keeps; [unfold add_variable; keeps|]. intros var.
  apply tracks_bind_keeps; [unfold set_writeable; keeps|]. intros _.
  apply preserves_two_modifies.
  - intros s Hs. unfold cache_tracks_nodes in *. cbn.
    by rewrite !dom_insert_L, Hs.
  - apply tracks_keeps. unfold assign_set_value_callback. keeps.
Qed.

Lemma tracks_start_server (rt : Runtime) : preserves cache_tracks_nodes (start_server rt).
Proof.
  unfold start_server. apply tracks_bind_keeps; [keeps|]. intros running.
  destruct running; [apply tracks_keeps; keeps|].
  apply tracks_bind_keeps; [keeps|]. intros _.
  apply tracks_bind_keeps; [keeps|]. intros port_. cbv zeta.
  apply tracks_bind_keeps; [keeps|]. intros _.
  apply tracks_bind_keeps; [keeps|]. intros name.
  apply tracks_bind_keeps; [keeps|]. intros _.
  apply tracks_bind_keeps; [unfold security_specified; keeps|]. intros secure.
  apply tracks_bind_keeps; [keeps|]. intros _.
  apply tracks_bind_keeps; [keeps|]. intros uri_.
  apply tracks_bind_keeps; [keeps|]. intros idx.
  apply tracks_bind_keeps; [unfold get_objects_node; keeps|]. intros objects.
  apply tracks_bind_keeps; [unfold add_object; keeps|]. intros device_node.
  apply tracks_bind_keeps; [keeps|]. intros bound.
  apply preserves_bind.
  - destruct (is_bound bound); [|apply tracks_keeps; keeps].
    apply preserves_bind; [apply tracks_add_properties|].
    intros _. apply tracks_keeps, keeps_maps_add_methods.
  - intros _. apply tracks_keeps.
    unfold server_start, log_info. keeps.
Qed.

Lemma tracks_stop_server : preserves cache_tracks_nodes stop_server.
Proof.
  unfold stop_server. apply tracks_bind_keeps; [keeps|]. intros running.
  destruct (negb running); [apply tracks_keeps; keeps|].
  apply tracks_bind_keeps; [keeps|]. intros _.
  apply tracks_bind_keeps; [keeps|]. intros thread.
  apply tracks_bind_keeps; [keeps|]. intros _.
  apply tracks_bind_keeps; [keeps|]. intros server.
  apply tracks_bind_keeps; [keeps|]. intros _.
  apply tracks_bind_keeps; [keeps|]. intros _.
  apply preserves_two_modifies.
  - intros s _. unfold cache_tracks_nodes. cbn. by rewrite !dom_empty_L.
  - apply tracks_keeps. unfold log_info. keeps.
Qed.

Lemma cache_covers_event (nodes : gmap string Node) (s : OPCUAAdapter) (tr : list Event) :
  cache_covers nodes s -> cache_covers nodes (set_trace tr s).
Proof. by intros [? ?]. Qed.

(** One item of a polling pass keeps the cache on the keys of the node
    map. *)
Lemma update_property_covers (rt : Runtime) (nodes : gmap string Node)
    (property : string) (node : Node) (s : OPCUAAdapter) :
  property ∈ dom nodes ->
  cache_covers nodes s ->
  cache_covers nodes (update_property rt property node s).2.
Proof.
  intros Hin Hs. unfold update_property. rewrite bind_run. unfold gets at 1. cbv beta iota.
  destruct (interface s ≫= fun d => d !! property) as [a|]; [|done].
  rewrite bind_run. unfold gets at 1. cbv beta iota.
  destruct (value_changed rt (_property_values s) property (attr_value a)); [|done].
  unfold try_except, node_set_value. rewrite bind_run, bind_run.
  unfold emit at 1, modify at 1. cbv beta iota.
  set (s1 := set_trace (trace s ++ [SetValue (node_name node) (attr_value a)]) s).
  assert (cache_covers nodes s1) as Hs1 by (by apply cache_covers_event).
  destruct (set_value_raises rt (node_name node) (attr_value a)) as [e|].
  - unfold raise at 1. cbv beta iota. by apply cache_covers_event.
  - unfold server_update. destruct (_server s1) as [srv|] eqn:Hsrv.
    + cbn. destruct Hs1 as [Hn Hdom]. split; [done|]. cbn.
      rewrite dom_insert_L. cbn in Hdom. rewrite <- Hdom. set_solver.
    + cbv beta iota. by apply cache_covers_event.
Qed.

(** On a covered cache the first operand of the test on line 361 is false:
    the item runs as it would without it. *)
Lemma update_property_fallback_unused (rt : Runtime) (nodes : gmap string Node)
    (property : string) (node : Node) (s : OPCUAAdapter) :
  property ∈ dom nodes ->
  cache_covers nodes s ->
  update_property rt property node s = update_property_no_fallback rt property node s.
Proof.
  intros Hin [Hn Hdom]. unfold update_property, update_property_no_fallback.
  rewrite !bind_run. unfold gets. cbv beta iota.
  destruct (interface s ≫= fun d => d !! property) as [a|]; [|done].
  rewrite !bind_run. cbv beta iota. unfold value_changed.
  rewrite Hdom in Hin. apply elem_of_dom in Hin as [cached Hcached].
  by rewrite Hcached.
Qed.

Lemma for_each_ext_in {A : Type} (I : OPCUAAdapter -> Prop)
    (body1 body2 : A -> M unit) (xs : list A) :
  (forall x s, x ∈ xs -> I s -> body1 x s = body2 x s) ->
  (forall x s, x ∈ xs -> I s -> I (body1 x s).2) ->
  forall s, I s -> for_each xs body1 s = for_each xs body2 s.
Proof.
  induction xs as [|x xs IH]; intros Heq Hinv s Hs; [done|].
  cbn [for_each]. rewrite !bind_run.
  rewrite <- (Heq x s (list_elem_of_here _ _) Hs).
  pose proof (Hinv x s (list_elem_of_here _ _) Hs) as Hx.
  destruct (body1 x s) as [[[]|e] s1]; cbn in *; [|done].
  apply IH; [| |done].
  - intros y s' Hy. apply Heq. by right.
  - intros y s' Hy. apply Hinv. by right.
Qed.

Lemma items_in_dom (nodes : gmap string Node) (item : string * Node) :
  item ∈ map_to_list nodes -> item.1 ∈ dom nodes.
Proof.
  destruct item as [property node]. intros H%elem_of_map_to_list.
  apply elem_of_dom. by eexists.
Qed.

Lemma tracks_poll_cycle (rt : Runtime) : preserves cache_tracks_nodes (poll_cycle rt).
Proof.
  intros s Hs. unfold poll_cycle, with_device_lock.
  set (s1 := set_trace (trace s ++ [Acquire]) s).
  assert (cache_covers (_nodes s1) s1) as Hs1 by (by split).
  rewrite bind_run. unfold gets at 1. cbv beta iota.
  pose proof (for_each_preserves_in (cache_covers (_nodes s1))
                (fun item => update_property rt item.1 item.2)
                (map_to_list (_nodes s1))
                (fun x s2 Hx Hs2 =>
                   update_property_covers rt (_nodes s1) x.1 x.2 s2
                     (items_in_dom _ _ Hx) Hs2)
                s1 Hs1) as Hloop.
  rewrite bind_run.
  destruct (for_each _ _ s1) as [[[]|e] s2]; cbn in Hloop.
  - rewrite bind_run, options_of_options. cbv beta iota.
    destruct Hloop as [Hn Hdom]. unfold cache_tracks_nodes. cbn. by rewrite Hn.
  - destruct Hloop as [Hn Hdom]. unfold cache_tracks_nodes. cbn. by rewrite Hn.
Qed.

Lemma poll_cycle_fallback_unused (rt : Runtime) (s : OPCUAAdapter) :
  cache_tracks_nodes s -> poll_cycle rt s = poll_cycle_no_fallback rt s.
Proof.
  intros Hs. unfold poll_cycle, poll_cycle_no_fallback, with_device_lock.
  set (s1 := set_trace (trace s ++ [Acquire]) s).
  assert (cache_covers (_nodes s1) s1) as Hs1 by (by split).
  rewrite !bind_run. unfold gets. cbv beta iota. rewrite !bind_run.
  rewrite (for_each_ext_in (cache_covers (_nodes s1))
             (fun item => update_property rt item.1 item.2)
             (fun item => update_property_no_fallback rt item.1 item.2)
             (map_to_list (_nodes s1))
             (fun x s2 Hx Hs2 =>
                update_property_fallback_unused rt (_nodes s1) x.1 x.2 s2
                  (items_in_dom _ _ Hx) Hs2)
             (fun x s2 Hx Hs2 =>
                update_property_covers rt (_nodes s1) x.1 x.2 s2
                  (items_in_dom _ _ Hx) Hs2)
             s1 Hs1).
  reflexivity.
Qed.

Lemma tracks_update_variables (rt : Runtime) (fuel : nat) :
  preserves cache_tracks_nodes (_update_variables rt fuel).
Proof.
  induction fuel as [|fuel IH]; [by intros s|].
  cbn [_update_variables]. apply tracks_bind_keeps; [unfold keep_polling; keeps|].
  intros [|]; [|apply tracks_keeps; keeps].
  apply preserves_bind; [apply tracks_poll_cycle | by intros _].
Qed.

Lemma tracks_adapter_step (rt : Runtime) (s s' : OPCUAAdapter) :
  adapter_step rt s s' -> cache_tracks_nodes s -> cache_tracks_nodes s'.
Proof.
  intros Hstep Hs. inversion Hstep; subst.
  - by apply tracks_add_properties.
  - apply tracks_keeps; [apply keeps_maps_add_methods | done].
  - by apply tracks_start_server.
  - by apply tracks_stop_server.
  - by apply tracks_update_variables.
  - apply tracks_keeps; [apply keeps_maps_run_write_callback | done].
  - apply tracks_keeps; [apply keeps_maps_invoke_method_node | done].
  - apply tracks_keeps; [apply keeps_maps_handle | done].
  - done.
Qed.

(** C10: a new adapter has an empty node map and an empty cache, and every
    step of an adapter (the builders, start, stop, the polling loop, the
    callbacks, [handle], a change of the device) leaves the two with the
    same keys, whether the step completes or raises; so they have the same
    keys in every state an adapter can reach.  In such a state a polling
    pass runs exactly as it would with the first operand of line 361
    removed: no tracked property is ever missing from the cache. *)
Theorem C10_cache_and_node_map_share_their_keys (rt : Runtime) :
  (forall options device, cache_tracks_nodes (__init__ options device)) /\
  (forall s s', cache_tracks_nodes s -> adapter_step rt s s' -> cache_tracks_nodes s') /\
  (forall options device s,
     rtc (adapter_step rt) (__init__ options device) s ->
     cache_tracks_nodes s /\ poll_cycle rt s = poll_cycle_no_fallback rt s) /\
  (forall s, cache_tracks_nodes s -> poll_cycle rt s = poll_cycle_no_fallback rt s).
Proof.
  assert (forall options device s,
            rtc (adapter_step rt) (__init__ options device) s -> cache_tracks_nodes s)
    as Hreach.
  { intros options device. apply rtc_ind_r; [done|].
    intros s s' _ Hstep Hs. by eapply tracks_adapter_step. }
  split; [done|]. split; [|split].
  - intros s s' Hs Hstep. by eapply tracks_adapter_step.
  - intros options device s Hs. split; [by eapply Hreach|].
    apply poll_cycle_fallback_unused. by eapply Hreach.
  - apply poll_cycle_fallback_unused.
Qed.

Lemma C10_witness_polling_example :
  cache_tracks_nodes (polling example_device) /\
  cache_tracks_nodes (_update_variables example_runtime 3 (polling example_device)).2 /\
  cache_tracks_nodes (stop_server (polling example_device)).2 /\
  poll_cycle example_runtime (polling example_device)
    = poll_cycle_no_fallback example_runtime (polling example_device).
Proof.
  assert (cache_tracks_nodes (polling example_device)) as H by (vm_compute; reflexivity).
  pose proof (C10_cache_and_node_map_share_their_keys example_runtime)
    as (_ & Hstep & _ & Hdead).
  split; [exact H|]. split; [|split].
  - apply (Hstep (polling example_device)); [exact H | constructor].
  - apply (Hstep (polling example_device)); [exact H | constructor].
  - apply Hdead. exact H.
Defined.

(** ** Further properties of the builders and the classifier *)

(** X2: the variable node built for an exposed attribute carries the
    attribute's value and the classifier's tag for it, and is writable
    exactly when the attribute is not listed in [read_only_properties]; the
    cache holds the same value. *)
Theorem X2_variable_node_is_writable_unless_read_only
    (idx : nat) (device_node : Node) (d : Device) (s : OPCUAAdapter) (srv : Server) :
  interface s = Some d ->
  _server s = Some srv ->
  exists s' srv',
    _add_properties idx device_node s = (Ok tt, s') /\
    _server s' = Some srv' /\
    forall name a,
      d !! name = Some a ->
      callable a = false ->
      startswith_underscore name = false ->
      (name ∉ exclude_properties (_options s)) ->
      exists node,
        srv_variables srv' !! name = Some node /\
        vn_value node = attr_value a /\
        _get_ua_data_type (attr_value a) = Ok (vn_data_type node) /\
        (vn_writeable node = true <-> name ∉ read_only_properties (_options s)) /\
        _property_values s' !! name = Some (attr_value a) /\
        _nodes s' !! name = Some (mkNode idx name).
Proof.
  intros Hd Hsrv.
  destruct (add_properties_spec idx device_node d s srv Hd Hsrv)
    as (s' & Hrun & _ & _ & _ & _ & _ & _ & _ & Hnodes & Hpv
        & srv' & Hsrv' & _ & _ & _ & Hvars).
  exists s', srv'. split; [done|]. split; [done|].
  intros name a Ha Hcall Hund Hex.
  assert (exposed (_options s) d name = Some (attr_value a)) as Hexp
    by (apply exposed_Some; eauto 10).
  assert (name ∈ dir d) as Hin by (apply elem_of_dir; eauto).
  exists (variable_node_for (_options s) name (attr_value a)).
  repeat split.
  - rewrite Hvars, after_visit_all; rewrite Hexp; done.
  - destruct (classify_total (attr_value a)) as [t Ht].
    unfold variable_node_for, data_type_of. cbn [vn_data_type]. by rewrite Ht.
  - cbn. intros H%negb_true_iff. by apply bool_decide_eq_false in H.
  - cbn. intros H. apply negb_true_iff. by apply bool_decide_eq_false.
  - rewrite Hpv, after_visit_all; rewrite Hexp; done.
  - rewrite Hnodes, after_visit_all; rewrite Hexp; done.
Qed.

Lemma X2_witness_example_device :
  exists s' srv' node,
    _add_properties 0 (mkNode 0 "Device") (before_build example_device) = (Ok tt, s') /\
    _server s' = Some srv' /\
    srv_variables srv' !! "power" = Some node /\
    vn_value node = VBool false /\
    vn_data_type node = ua.Boolean /\
    vn_writeable node = true.
Proof.
  destruct (X2_variable_node_is_writable_unless_read_only
              0 (mkNode 0 "Device") example_device (before_build example_device)
              new_Server eq_refl eq_refl)
    as (s' & srv' & Hrun & Hsrv' & Hnodes).
  destruct (Hnodes "power" (Data (VBool false)) eq_refl eq_refl eq_refl
                   (not_elem_of_nil _))
    as (node & Hnode & Hval & Htype & Hw & _).
  exists s', srv', node.
  split; [exact Hrun|]. split; [exact Hsrv'|]. split; [exact Hnode|].
  split; [exact Hval|]. split; [cbn in Htype; congruence|].
  apply Hw. apply not_elem_of_nil.
Defined.

(** X3: on a list the classifier returns Boolean when every element is a
    boolean, otherwise Int64 when every element is a boolean or an integer,
    otherwise Double when every element is a float, otherwise Variant; the
    empty list is Boolean. *)
Theorem X3_list_classification (l : list PyVal) :
  _get_ua_data_type (VList l) =
  Ok (if all_isinstance Cbool l then ua.Boolean
      else if all_isinstance Cint l then ua.Int64
      else if all_isinstance Cfloat l then ua.Double
      else ua.Variant) /\
  _get_ua_data_type (VList []) = Ok ua.Boolean.
Proof. split; [apply classify_list | reflexivity]. Qed.

(** * Further properties of the adapter *)

(** ** The classifier on values that are not lists *)



(** ** The write callback *)

(** X5: the write callback made for a property, run on a bound device,
    acknowledges with [True]; afterwards the device has the written value
    under that name and every other attribute as before.  The lock is
    taken before and released after the assignment.  Neither the node map
    nor the value cache nor the server is touched: the cache still holds
    the value from before the write. *)
Theorem X5_write_callback_sets_the_attribute
    (property_name : string) (val : PyVal) (s : OPCUAAdapter) (d : Device) :
  interface s = Some d ->
  exists s' d',
    run_write_callback property_name val s = (Ok true, s') /\
    interface s' = Some d' /\
    d' !! property_name = Some (Data val) /\
    (forall other, other <> property_name -> d' !! other = d !! other) /\
    trace s' = trace s ++ [Acquire; SetAttr property_name val; Release] /\
    _nodes s' = _nodes s /\
    _property_values s' = _property_values s /\
    _server s' = _server s /\
    _running s' = _running s.
Proof.
  intros Hd. unfold run_write_callback, with_device_lock.
  rewrite bind_run. cbn [interface set_trace]. rewrite Hd. cbv beta iota.
  eexists _, _. split; [reflexivity|]. cbn. split; [reflexivity|].
  unfold setattr. rewrite lookup_insert_eq. repeat split; try done.
  - intros other Hne. by rewrite lookup_insert_ne.
  - by rewrite <- !app_assoc.
Qed.

Lemma X5_witness_write_temperature :
  exists s' d',
    run_write_callback "temperature" (VFloat 30) (polling example_device) = (Ok true, s') /\
    interface s' = Some d' /\
    d' !! "temperature" = Some (Data (VFloat 30)) /\
    _property_values s' !! "temperature" = Some (VFloat 25).
Proof.
  destruct (X5_write_callback_sets_the_attribute "temperature" (VFloat 30)
              (polling example_device) example_device eq_refl)
    as (s' & d' & Hrun & Hd' & Hval & _ & _ & _ & Hcache & _).
  exists s', d'. split; [exact Hrun|]. split; [exact Hd'|]. split; [exact Hval|].
  rewrite Hcache. reflexivity.
Defined.

(** ** The call wrapper and the lock *)

(** X6: whatever the instance and the arguments, a call wrapper releases
    the lock it took, makes at most one call into the device between the
    two, and leaves the node map, the value cache and the server alone;
    this holds as well when the name lookup or the call raises. *)
Theorem X6_call_wrapper_releases_the_lock
    (frame : nat) (args : list PyVal) (s : OPCUAAdapter) :
  (exists between,
     trace (run_method_wrapper frame args s).2
     = trace s ++ [Acquire] ++ between ++ [Release] /\
     (between = [] \/ exists name, between = [Call name args])) /\
  _nodes (run_method_wrapper frame args s).2 = _nodes s /\
  _property_values (run_method_wrapper frame args s).2 = _property_values s /\
  _server (run_method_wrapper frame args s).2 = _server s /\
  _running (run_method_wrapper frame args s).2 = _running s.
Proof.
  assert (forall (r : Result (list PyVal)) s1 between,
            trace s1 = trace s ++ [Acquire] ++ between ->
            (between = [] \/ exists name, between = [Call name args]) ->
            _nodes s1 = _nodes s -> _property_values s1 = _property_values s ->
            _server s1 = _server s -> _running s1 = _running s ->
            (exists between,
               trace (r, set_trace (trace s1 ++ [Release]) s1).2
               = trace s ++ [Acquire] ++ between ++ [Release] /\
               (between = [] \/ exists name, between = [Call name args])) /\
            _nodes (r, set_trace (trace s1 ++ [Release]) s1).2 = _nodes s /\
            _property_values (r, set_trace (trace s1 ++ [Release]) s1).2
              = _property_values s /\
            _server (r, set_trace (trace s1 ++ [Release]) s1).2 = _server s /\
            _running (r, set_trace (trace s1 ++ [Release]) s1).2 = _running s) as Hout.
  { intros r s1 between Htr Hb Hn Hpv Hsrv Hrun. split; [|by cbn].
    exists between. split; [|done]. cbn. by rewrite Htr, <- !app_assoc. }
  unfold run_method_wrapper, with_device_lock.
  rewrite bind_run. unfold read_method_name. cbn [cells set_trace].
  destruct (cells s !! frame) as [[name|]|]; cbv beta iota;
    try (apply (Hout _ _ []); by auto using app_nil_r).
  rewrite bind_run. unfold getattr_interface. cbn [interface set_trace].
  destruct (interface s) as [d|] eqn:Hd; cbn [mbind option_bind];
    [|apply (Hout _ _ []); by auto using app_nil_r].
  destruct (d !! name) as [[v|sig body]|]; cbv beta iota;
    try (apply (Hout _ _ []); by auto using app_nil_r).
  rewrite bind_run. cbn [call_attr interface set_trace]. rewrite Hd. cbv beta iota.
  destruct (call_result (body (data_view d) args)) as [[]|e];
    (apply (Hout _ _ [Call name args]);
       [cbn; by rewrite <- !app_assoc | right; by exists name | done..]).
Qed.

(** ** Stopping *)

(** X7: [stop_server] on a running adapter completes: it raises the stop
    signal, joins the polling thread with a timeout of 2 s when there is
    one, stops the transport when there is a server, drops both
    references, empties the node map and the cache and logs once; the
    device and the options are not touched.  A second [stop_server] then
    changes nothing. *)
Theorem X7_stop_server_on_a_running_adapter (s : OPCUAAdapter) :
  _running s = true ->
  exists s',
    stop_server s = (Ok tt, s') /\
    _running s' = false /\ _stop_event s' = true /\
    _update_thread s' = None /\ _server s' = None /\
    _nodes s' = ∅ /\ _property_values s' = ∅ /\
    interface s' = interface s /\ _options s' = _options s /\
    trace s' = trace s
               ++ (if is_bound (_update_thread s) then [ThreadJoin 2] else [])
               ++ (if is_bound (_server s) then [TransportStop] else [])
               ++ [LogInfo "OPCUA server stopped"] /\
    stop_server s' = (Ok tt, s').
Proof.
  destruct s as [o dev srv running nodes th ev pv cs tr]. cbn. intros ->.
  destruct th as [t|], srv as [sv|]; eexists; (split; [reflexivity|]);
    cbn; repeat split; by rewrite <- ?app_assoc.
Qed.

Lemma X7_witness_polling_example :
  exists s',
    stop_server (set__update_thread (Some (mkThread "_update_variables" true))
                   (polling example_device)) = (Ok tt, s') /\
    trace s' = [ThreadJoin 2; TransportStop; LogInfo "OPCUA server stopped"] /\
    _nodes s' = ∅.
Proof.
  destruct (X7_stop_server_on_a_running_adapter
              (set__update_thread (Some (mkThread "_update_variables" true))
                 (polling example_device)) eq_refl)
    as (s' & Hrun & _ & _ & _ & _ & Hnodes & _ & _ & _ & Htr & _).
  exists s'. split; [exact Hrun|]. split; [exact Htr | exact Hnodes].
Defined.

(** ** A start that fails *)

(** X8: [start_server] on a stopped adapter, which raises on line 109,
    has by then replaced [_server] with a new server object that carries
    the endpoint [opc.tcp://0.0.0.0:<port>] and the server name; nothing
    else of the instance has changed and nothing is logged.  The adapter
    still counts as stopped, so [stop_server] returns at once and the
    server object stays referenced; a second [start_server] ends in the
    same state as the first. *)
Theorem X8_failed_start_leaves_a_server_object (rt : Runtime) (s : OPCUAAdapter) :
  _running s = false ->
  (start_server rt s).2
  = set__server
      (Some (set_server_name (server_name (_options s))
               (set_endpoint ("opc.tcp://0.0.0.0:" +:+ str_of_Z (port (_options s)))
                             new_Server))) s /\
  stop_server (start_server rt s).2 = (Ok tt, (start_server rt s).2) /\
  (start_server rt (start_server rt s).2).2 = (start_server rt s).2.
Proof.
  destruct s as [o dev srv running nodes th ev pv cs tr]. cbn. intros ->.
  repeat split.
Qed.

Lemma X8_witness_default_port :
  _server (start_server example_runtime (fresh example_device)).2
  = Some (mkServer (Some "opc.tcp://0.0.0.0:4840") (Some "Lewis OPCUA Server")
                   None None [] [] [] ∅ ∅ false).
Proof.
  rewrite (proj1 (X8_failed_start_leaves_a_server_object
                    example_runtime (fresh example_device) eq_refl)).
  reflexivity.
Defined.

(** ** What a polling pass does to the cache *)

(** A loop over items without repetition: the body may rely on where in
    the list its item stands. *)
Lemma for_each_invariant_prefix {A : Type} (P : list A -> OPCUAAdapter -> Prop)
    (body : A -> M unit) (xs : list A) :
  (forall visited x rest s, xs = visited ++ x :: rest -> P visited s ->
     exists s', body x s = (Ok tt, s') /\ P (visited ++ [x]) s') ->
  forall s, P [] s -> exists s', for_each xs body s = (Ok tt, s') /\ P xs s'.
Proof.
  intros Hbody.
  cut (forall rest visited s, xs = visited ++ rest -> P visited s ->
         exists s', for_each rest body s = (Ok tt, s') /\ P (visited ++ rest) s').
  { intros H s Hs. by apply (H xs [] s). }
  induction rest as [|x rest IH]; intros visited s Hxs Hs.
  - exists s. by rewrite app_nil_r.
  - destruct (Hbody visited x rest s Hxs Hs) as (s1 & Hx & Hs1).
    destruct (IH (visited ++ [x]) s1) as (s2 & Hrest & Hs2);
      [by rewrite <- app_assoc | done |].
    exists s2. split.
    + cbn [for_each]. by rewrite (bind_ok _ _ _ _ _ Hx).
    + by rewrite <- app_assoc in Hs2.
Qed.

Lemma pass_visited_item (rt : Runtime) (s1 : OPCUAAdapter)
    (visited : list (string * Node)) (property : string) (node : Node)
    (rest : list (string * Node)) (s : OPCUAAdapter) :
  map_to_list (_nodes s1) = visited ++ (property, node) :: rest ->
  pass_visited rt s1 visited s ->
  exists s', update_property rt property node s = (Ok tt, s') /\
             pass_visited rt s1 (visited ++ [(property, node)]) s'.
Proof.
  intros Hitems (Hd & Hn & Ho & Hrun & Hstop & Hsrv & Hpv & [evs Htr] & Hev).
  assert (_nodes s1 !! property = Some node) as Hnode.
  { apply elem_of_map_to_list. rewrite Hitems. apply elem_of_app. right. by left. }
  assert (property ∉ visited.*1) as Hfresh.
  { pose proof (NoDup_fst_map_to_list (_nodes s1)) as Hnd.
    rewrite Hitems, fmap_app in Hnd. apply NoDup_app in Hnd as (_ & Hnd & _).
    intros Hin. apply (Hnd property Hin). cbn. by left. }
  assert (_property_values s !! property = _property_values s1 !! property) as Hcur.
  { rewrite Hpv. unfold after_visit. destruct (pushed rt s1 property); [|done].
    by rewrite bool_decide_eq_false_2. }
  assert (forall s' evs',
    interface s' = interface s -> _nodes s' = _nodes s -> _options s' = _options s ->
    _running s' = _running s -> _stop_event s' = _stop_event s ->
    is_bound (_server s') = is_bound (_server s) ->
    trace s' = trace s ++ evs' ->
    (forall name, _property_values s' !! name =
       after_visit (pushed rt s1) (visited.*1 ++ [property]) (_property_values s1) name) ->
    (forall a,
       interface s1 ≫= (fun d => d !! property) = Some a ->
       value_changed rt (_property_values s1) property (attr_value a) = true ->
       SetValue (node_name node) (attr_value a) ∈ evs' /\
       forall e, set_value_raises rt (node_name node) (attr_value a) = Some e ->
         LogWarning ("Failed to update node " +:+ property +:+ ": " +:+ str_of_exn e)
         ∈ evs') ->
    pass_visited rt s1 (visited ++ [(property, node)]) s') as Hclose.
  { intros s' evs' Hd' Hn' Ho' Hrun' Hstop' Hsrv' Htr' Hpv' Hev'.
    unfold pass_visited. rewrite fmap_app. cbn [fmap list_fmap fst].
    repeat split; try congruence.
    - exists (evs ++ evs'). by rewrite Htr', Htr, <- app_assoc.
    - apply elem_of_app in H as [Hin|Hin%list_elem_of_singleton].
      + rewrite Htr'. apply elem_of_app. left. by apply (Hev _ _ _ Hin H0 H1).
      + injection Hin as -> ->. rewrite Htr'. apply elem_of_app. right.
        by apply (Hev' _ H0 H1).
    - intros e He. apply elem_of_app in H as [Hin|Hin%list_elem_of_singleton].
      + rewrite Htr'. apply elem_of_app. left. by apply (Hev _ _ _ Hin H0 H1).
      + injection Hin as -> ->. rewrite Htr'. apply elem_of_app. right.
        by apply (Hev' _ H0 H1). }
  unfold update_property. rewrite bind_run. unfold gets at 1. cbv beta iota. rewrite Hd.
  destruct (interface s1 ≫= fun d => d !! property) as [a|] eqn:Ha.
  - rewrite bind_run. unfold gets at 1. cbv beta iota.
    assert (value_changed rt (_property_values s) property (attr_value a)
            = value_changed rt (_property_values s1) property (attr_value a)) as ->
      by (unfold value_changed; by rewrite Hcur).
    destruct (value_changed rt (_property_values s1) property (attr_value a)) eqn:Hch.
    + unfold try_except, node_set_value. rewrite bind_run, bind_run.
      unfold emit at 1, modify at 1. cbv beta iota.
      destruct (set_value_raises rt (node_name node) (attr_value a)) as [e|] eqn:Hrej.
      * (* the engine rejects the value *)
        unfold raise at 1. cbv beta iota. eexists. split; [reflexivity|].
        apply (Hclose _ [SetValue (node_name node) (attr_value a);
                         LogWarning ("Failed to update node " +:+ property +:+ ": "
                                     +:+ str_of_exn e)]);
          [done | done | done | done | done | done | | |].
        -- cbn. by rewrite <- app_assoc.
        -- apply after_visit_skip; [|done]. unfold pushed.
           by rewrite Hnode, Ha, Hch, Hrej.
        -- intros a' [= <-] _. split; [by left|].
           intros e' He'. assert (e' = e) as -> by congruence. right. by left.
      * unfold server_update. cbn [_server set_trace].
        destruct (_server s) as [srv|] eqn:Hserver.
        -- (* the value is pushed and cached *)
           cbv beta iota. eexists. split; [reflexivity|].
           apply (Hclose _ [SetValue (node_name node) (attr_value a)]);
             [done | done | done | done | done | | done | |].
           ++ done.
           ++ cbn [_property_values set__server set__property_values set_trace].
              apply after_visit_insert; [|done]. unfold pushed.
              by rewrite Hnode, Ha, Hch, Hrej, <- Hsrv.
           ++ intros a' [= <-] _. split; [by left|]. intros e' He'. congruence.
        -- (* no server to take the value *)
           cbv beta iota. eexists. split; [reflexivity|].
           apply (Hclose _ [SetValue (node_name node) (attr_value a);
                            LogWarning ("Failed to update node " +:+ property +:+ ": "
                                        +:+ str_of_exn (AttributeError "_server"))]);
             [done | done | done | done | done | | | |].
           ++ cbn [_server set_trace]. by rewrite Hserver.
           ++ cbn. by rewrite <- app_assoc.
           ++ apply after_visit_skip; [|done]. unfold pushed.
              by rewrite Hnode, Ha, Hch, Hrej, <- Hsrv.
           ++ intros a' [= <-] _. split; [by left|]. intros e' He'. congruence.
    + exists s. split; [reflexivity|].
      apply (Hclose s []); [done | done | done | done | done | done | | |].
      * by rewrite app_nil_r.
      * apply after_visit_skip; [|done]. unfold pushed. by rewrite Hnode, Ha, Hch.
      * intros a' [= <-] Hch'. congruence.
  - exists s. split; [reflexivity|].
    apply (Hclose s []); [done | done | done | done | done | done | | |].
    + by rewrite app_nil_r.
    + apply after_visit_skip; [|done]. unfold pushed. by rewrite Hnode, Ha.
    + intros a' Ha'. congruence.
Qed.

Lemma pushed_tracked (rt : Runtime) (s : OPCUAAdapter) (property : string) (v : PyVal) :
  pushed rt s property = Some v -> property ∈ (map_to_list (_nodes s)).*1.
Proof.
  unfold pushed. destruct (_nodes s !! property) as [node|] eqn:Hnode; [|done].
  intros _. apply list_elem_of_fmap. exists (property, node).
  split; [done | by apply elem_of_map_to_list].
Qed.

(** A polling pass, as a whole. *)
Lemma poll_cycle_spec (rt : Runtime) (s : OPCUAAdapter) :
  exists s2,
    pass_visited rt (set_trace (trace s ++ [Acquire]) s) (map_to_list (_nodes s)) s2 /\
    poll_cycle rt s
    = (Ok tt, set_trace ((trace s2 ++ [Wait (update_interval (_options s))]) ++ [Release])
                        s2).
Proof.
  unfold poll_cycle, with_device_lock.
  set (s1 := set_trace (trace s ++ [Acquire]) s).
  rewrite bind_run. unfold gets at 1. cbv beta iota.
  destruct (for_each_invariant_prefix (pass_visited rt s1)
              (fun item => update_property rt item.1 item.2)
              (map_to_list (_nodes s1))) with (s := s1)
    as (s2 & Hrun & Hs2).
  - intros visited [property node] rest s' Hitems Hs'.
    by apply (pass_visited_item rt s1 visited property node rest).
  - unfold pass_visited. repeat split; try done.
    + intros name. apply after_visit_nil.
    + exists []. by rewrite app_nil_r.
    + by apply elem_of_nil in H.
    + by apply elem_of_nil in H.
  - exists s2. split; [exact Hs2|].
    rewrite (bind_ok _ _ _ _ _ Hrun). rewrite bind_run, options_of_options.
    cbv beta iota. destruct Hs2 as (_ & _ & Ho & _). by rewrite Ho.
Qed.

(** X9: a polling pass always completes, and it stores in the cache the
    device's current value of exactly those properties that are tracked,
    still on the device, found changed, accepted by the engine and taken
    by a server; every other cache entry stays as it was, so a property
    that left the device keeps its last value.  For each property found
    changed the new value is sent to its node; when the engine rejects it,
    a warning naming the property is logged, its cache entry is left
    alone, and the pass goes on.  The pass changes neither the node map
    nor the device nor the lifecycle flags. *)
Theorem X9_polling_pass_caches_what_it_pushes (rt : Runtime) (s : OPCUAAdapter) :
  exists s',
    poll_cycle rt s = (Ok tt, s') /\
    (forall name,
       _property_values s' !! name =
       match pushed rt s name with
       | Some v => Some v
       | None => _property_values s !! name
       end) /\
    _nodes s' = _nodes s /\ interface s' = interface s /\
    _running s' = _running s /\ _stop_event s' = _stop_event s /\
    (forall property node a,
       _nodes s !! property = Some node ->
       interface s ≫= (fun d => d !! property) = Some a ->
       value_changed rt (_property_values s) property (attr_value a) = true ->
       SetValue (node_name node) (attr_value a) ∈ trace s' /\
       forall e,
         set_value_raises rt (node_name node) (attr_value a) = Some e ->
         LogWarning ("Failed to update node " +:+ property +:+ ": " +:+ str_of_exn e)
         ∈ trace s' /\
         _property_values s' !! property = _property_values s !! property).
Proof.
  destruct (poll_cycle_spec rt s)
    as (s2 & (Hd & Hn & Ho & Hrun & Hstop & Hsrv & Hpv & _ & Hev) & Hpoll).
  eexists. split; [exact Hpoll|].
  assert (forall name,
    _property_values s2 !! name =
    match pushed rt s name with
    | Some v => Some v
    | None => _property_values s !! name
    end) as Hcache.
  { intros name. rewrite Hpv.
    apply (after_visit_all (pushed rt s) (_property_values s)
             (map_to_list (_nodes s)).*1 name).
    intros v. apply pushed_tracked. }
  cbn. split; [exact Hcache|]. repeat split; try done.
  - destruct (Hev property node a) as [Hset _];
      [by apply elem_of_map_to_list | done | done |].
    apply elem_of_app. left. apply elem_of_app. by left.
  - destruct (Hev property node a) as [_ Hwarn];
      [by apply elem_of_map_to_list | done | done |].
    apply elem_of_app. left. apply elem_of_app. left. by apply Hwarn.
  - rewrite Hcache. unfold pushed. by rewrite H, H0, H1, H2.
Qed.

Lemma for_each_unchanged {A : Type} (body : A -> M unit) (xs : list A) (s : OPCUAAdapter) :
  (forall x, x ∈ xs -> body x s = (Ok tt, s)) -> for_each xs body s = (Ok tt, s).
Proof.
  induction xs as [|x xs IH]; intros Hbody; [done|].
  cbn [for_each]. rewrite (bind_ok _ _ _ _ _ (Hbody x (list_elem_of_here _ _))).
  apply IH. intros y Hy. apply Hbody. by right.
Qed.

(** X10: when no tracked property that is still on the device differs from
    its cached value by the test of line 361, a polling pass sends nothing
    to the engine and logs nothing: it takes the lock, waits for
    [update_interval], releases the lock and leaves the rest of the
    instance as it was. *)
Theorem X10_polling_pass_over_an_unchanged_device (rt : Runtime) (s : OPCUAAdapter) :
  (forall property node a,
     _nodes s !! property = Some node ->
     interface s ≫= (fun d => d !! property) = Some a ->
     value_changed rt (_property_values s) property (attr_value a) = false) ->
  poll_cycle rt s
  = (Ok tt, set_trace (trace s ++ [Acquire; Wait (update_interval (_options s)); Release]) s).
Proof.
  intros Hsame. unfold poll_cycle, with_device_lock.
  set (s1 := set_trace (trace s ++ [Acquire]) s).
  rewrite bind_run. unfold gets at 1. cbv beta iota.
  rewrite (bind_ok _ _ s1 s1 tt).
  - rewrite bind_run, options_of_options. cbv beta iota. cbn.
    by rewrite <- !app_assoc.
  - apply for_each_unchanged. intros [property node] Hin%elem_of_map_to_list.
    unfold update_property. rewrite bind_run. unfold gets at 1. cbv beta iota.
    unfold s1. cbn [fst snd interface set_trace].
    destruct (interface s ≫= fun d => d !! property) as [a|] eqn:Ha; [|done].
    rewrite bind_run. unfold gets at 1. cbv beta iota.
    cbn [_property_values set_trace]. by rewrite (Hsame property node a Hin Ha).
Qed.

Lemma X10_witness_example_after_build :
  trace (poll_cycle example_runtime (polling example_device)).2
  = [Acquire; Wait 0x1.999999999999ap-4; Release].
Proof.
  rewrite (X10_polling_pass_over_an_unchanged_device example_runtime
             (polling example_device)).
  - reflexivity.
  - intros property node a Hnode Ha.
    assert (property = "power" \/ property = "temperature") as [-> | ->].
    { assert (property ∈ dom (_nodes (polling example_device))) as Hin
        by (apply elem_of_dom; eauto).
      assert (dom (_nodes (polling example_device)) = {["power"; "temperature"]}) as Hdom
        by (vm_compute; reflexivity).
      rewrite Hdom in Hin.
      apply elem_of_union in Hin as [Hin%elem_of_singleton | Hin%elem_of_singleton];
        auto. }
    + vm_compute in Ha. injection Ha as <-. reflexivity.
    + vm_compute in Ha. injection Ha as <-. reflexivity.
Defined.

(** ** The polling loop as a whole *)

Lemma waits_app (tr1 tr2 : list Event) : waits (tr1 ++ tr2) = (waits tr1 + waits tr2)%nat.
Proof.
  induction tr1 as [|ev tr1 IH]; [done|]. destruct ev; cbn; by rewrite ?IH.
Qed.

Lemma waits_updates (evs : list Event) :
  Forall (fun ev => is_update_event ev = true) evs -> waits evs = 0%nat.
Proof.
  induction 1 as [|ev evs Hev _ IH]; [done|]. by destruct ev.
Qed.

(** A polling pass records one wait and leaves the flags the loop tests. *)
Lemma poll_cycle_one_wait (rt : Runtime) (s : OPCUAAdapter) :
  exists s',
    poll_cycle rt s = (Ok tt, s') /\
    waits (trace s') = S (waits (trace s)) /\
    _running s' = _running s /\ _stop_event s' = _stop_event s /\
    interface s' = interface s.
Proof.
  unfold poll_cycle, with_device_lock.
  set (s1 := set_trace (trace s ++ [Acquire]) s).
  rewrite bind_run. unfold gets at 1. cbv beta iota.
  destruct (for_each_invariant (fun _ => polled s1)
              (fun item => update_property rt item.1 item.2)
              (map_to_list (_nodes s1))
              (fun _ x s2 _ Hs2 => update_property_polled rt x.1 x.2 s1 s2 Hs2)
              s1 (polled_refl s1))
    as (s2 & Hrun & Ho & Hd & Hr & He & _ & updates & Htr & Hall).
  rewrite (bind_ok _ _ _ _ _ Hrun).
  rewrite bind_run, options_of_options. cbv beta iota.
  eexists. split; [reflexivity|]. cbn. repeat split; try done.
  rewrite Htr. cbn. rewrite !waits_app, (waits_updates _ Hall). cbn. lia.
Qed.

(** X11: the polling loop never ends on its own.  Started on an adapter
    that is running, has a device and whose stop signal is clear, it makes
    one pass with one wait per turn for as many turns as it is given,
    because no pass changes what the loop condition reads.  Started when
    the stop signal is set, the adapter is stopped or no device is bound,
    it reads the stop signal once and returns without a pass. *)
Theorem X11_polling_loop_runs_until_told_to_stop (rt : Runtime) (s : OPCUAAdapter) :
  (_stop_event s = false -> _running s = true -> is_bound (interface s) = true ->
   forall turns,
     exists s',
       _update_variables rt turns s = (Ok false, s') /\
       waits (trace s') = (waits (trace s) + turns)%nat /\
       _stop_event s' = false /\ _running s' = true /\
       is_bound (interface s') = true) /\
  (negb (_stop_event s) && _running s && is_bound (interface s) = false ->
   forall turns,
     _update_variables rt (S turns) s
     = (Ok true, set_trace (trace s ++ [IsSet (_stop_event s)]) s)).
Proof.
  split.
  - intros Hstop Hrun Hd turns. revert s Hstop Hrun Hd.
    induction turns as [|turns IH]; intros s Hstop Hrun Hd.
    + exists s. repeat split; try done; cbn; lia.
    + cbn [_update_variables]. rewrite bind_run, keep_polling_run.
      rewrite Hstop, Hrun, Hd. cbn [negb andb]. cbv beta iota.
      destruct (poll_cycle_one_wait rt (set_trace (trace s ++ [IsSet false]) s))
        as (s1 & Hpass & Hw & Hr1 & He1 & Hd1).
      rewrite (bind_ok _ _ _ _ _ Hpass).
      destruct (IH s1) as (s2 & Hloop & Hw2 & Hflags);
        [by rewrite He1 | by rewrite Hr1 | by rewrite Hd1 |].
      exists s2. split; [exact Hloop|]. split; [|exact Hflags].
      rewrite Hw2, Hw. cbn [trace set_trace]. rewrite waits_app. cbn. lia.
  - intros Hcond turns. cbn [_update_variables].
    rewrite bind_run, keep_polling_run, Hcond. reflexivity.
Qed.

Lemma X11_witness_three_turns :
  exists s',
    _update_variables example_runtime 3 (polling example_device) = (Ok false, s') /\
    waits (trace s') = 3%nat.
Proof.
  destruct (proj1 (X11_polling_loop_runs_until_told_to_stop example_runtime
                     (polling example_device)) eq_refl eq_refl eq_refl 3%nat)
    as (s' & Hrun & Hw & _).
  exists s'. split; [exact Hrun | exact Hw].
Defined.

(** ** A write followed by a pass *)

(** X12: the write callback changes the device but not the cache, so the
    pass that follows a write of a value that differs from the cached one
    finds the property changed, sends the written value to the property's
    node and only then stores it in the cache (given an engine that
    accepts the value and a server to take it). *)
Theorem X12_written_value_is_pushed_by_the_next_pass
    (rt : Runtime) (s : OPCUAAdapter) (d : Device) (property : string)
    (val cached : PyVal) (node : Node) :
  interface s = Some d ->
  _nodes s !! property = Some node ->
  _property_values s !! property = Some cached ->
  py_ne rt cached val = true ->
  set_value_raises rt (node_name node) val = None ->
  is_bound (_server s) = true ->
  exists s1 s2,
    run_write_callback property val s = (Ok true, s1) /\
    _property_values s1 !! property = Some cached /\
    poll_cycle rt s1 = (Ok tt, s2) /\
    _property_values s2 !! property = Some val /\
    SetValue (node_name node) val ∈ trace s2.
Proof.
  intros Hd Hnode Hcached Hne Hacc Hsrv.
  assert (exists s1,
    run_write_callback property val s = (Ok true, s1) /\
    interface s1 = Some (setattr property val d) /\
    _nodes s1 = _nodes s /\ _property_values s1 = _property_values s /\
    _server s1 = _server s) as (s1 & Hwrite & Hd1 & Hn1 & Hpv1 & Hsrv1).
  { unfold run_write_callback, with_device_lock.
    rewrite bind_run. cbn [interface set_trace]. rewrite Hd. cbv beta iota.
    eexists. split; [reflexivity|]. by cbn. }
  destruct (poll_cycle_spec rt s1)
    as (s2 & (_ & _ & _ & _ & _ & _ & Hpv & _ & Hev) & Hpoll).
  assert (interface s1 ≫= (fun d => d !! property) = Some (Data val)) as Ha.
  { rewrite Hd1. cbn. unfold setattr. by rewrite lookup_insert_eq. }
  assert (value_changed rt (_property_values s1) property val = true) as Hch.
  { unfold value_changed. by rewrite Hpv1, Hcached. }
  assert (pushed rt s1 property = Some val) as Hpushed.
  { unfold pushed. rewrite Hn1, Hnode, Ha. cbn [attr_value].
    by rewrite Hch, Hacc, Hsrv1, Hsrv. }
  exists s1. eexists. split; [exact Hwrite|]. split; [by rewrite Hpv1|].
  split; [exact Hpoll|]. cbn. split.
  - rewrite Hpv.
    rewrite (after_visit_all (pushed rt s1) (_property_values s1)
               (map_to_list (_nodes s1)).*1 property).
    + change (pushed rt (set_trace (trace s1 ++ [Acquire]) s1) property)
        with (pushed rt s1 property). by rewrite Hpushed.
    + intros v. apply (pushed_tracked rt s1).
  - destruct (Hev property node (Data val)) as [Hset _];
      [apply elem_of_map_to_list; by rewrite Hn1 | exact Ha | exact Hch |].
    apply elem_of_app. left. apply elem_of_app. by left.
Qed.

Lemma X12_witness_write_30 :
  exists s1 s2,
    run_write_callback "temperature" (VFloat 30) (polling example_device) = (Ok true, s1) /\
    poll_cycle example_runtime s1 = (Ok tt, s2) /\
    _property_values s2 !! "temperature" = Some (VFloat 30) /\
    SetValue "temperature" (VFloat 30) ∈ trace s2.
Proof.
  destruct (X12_written_value_is_pushed_by_the_next_pass example_runtime
              (polling example_device) example_device "temperature"
              (VFloat 30) (VFloat 25) (mkNode 0 "temperature")
              eq_refl eq_refl eq_refl eq_refl eq_refl eq_refl)
    as (s1 & s2 & Hwrite & _ & Hpoll & Hcache & Hset).
  exists s1, s2. split; [exact Hwrite|]. split; [exact Hpoll|].
  split; [exact Hcache | exact Hset].
Defined.

(** ** Building twice *)



(** X14: the variable node of a property listed in [read_only_properties]
    gets no write callback; the node of any other exposed property gets
    the callback that was made for that very property, however many
    properties one run builds. *)
Theorem X14_each_write_callback_owns_its_property
    (idx : nat) (device_node : Node) (d : Device) (s : OPCUAAdapter) (srv : Server) :
  interface s = Some d ->
  _server s = Some srv ->
  exists s' srv',
    _add_properties idx device_node s = (Ok tt, s') /\
    _server s' = Some srv' /\
    forall name v,
      exposed (_options s) d name = Some v ->
      exists node,
        srv_variables srv' !! name = Some node /\
        (name ∈ read_only_properties (_options s) ->
         vn_set_value_callback node = None /\ vn_writeable node = false) /\
        (name ∉ read_only_properties (_options s) ->
         vn_set_value_callback node = Some (write_callback name) /\
         vn_writeable node = true).
Proof.
  intros Hd Hsrv.
  destruct (add_properties_spec idx device_node d s srv Hd Hsrv)
    as (s' & Hrun & _ & _ & _ & _ & _ & _ & _ & _ & _
        & srv' & Hsrv' & _ & _ & _ & Hvars).
  exists s', srv'. split; [done|]. split; [done|].
  intros name v Hexp.
  exists (variable_node_for (_options s) name v). split.
  - rewrite Hvars, after_visit_all; rewrite Hexp; [done|].
    intros _ _. apply exposed_Some in Hexp as (a & Ha & _). apply elem_of_dir. eauto.
  - unfold variable_node_for. cbn. split; intros Hro.
    + by rewrite bool_decide_eq_true_2.
    + by rewrite bool_decide_eq_false_2.
Qed.

Lemma X14_witness_two_properties :
  exists s' srv' node1 node2,
    _add_properties 0 (mkNode 0 "Device") (before_build example_device) = (Ok tt, s') /\
    _server s' = Some srv' /\
    srv_variables srv' !! "power" = Some node1 /\
    vn_set_value_callback node1 = Some (write_callback "power") /\
    srv_variables srv' !! "temperature" = Some node2 /\
    vn_set_value_callback node2 = Some (write_callback "temperature").
Proof.
  destruct (X14_each_write_callback_owns_its_property 0 (mkNode 0 "Device")
              example_device (before_build example_device) new_Server eq_refl eq_refl)
    as (s' & srv' & Hrun & Hsrv' & Hnodes).
  destruct (Hnodes "power" (VBool false) eq_refl) as (node1 & Hn1 & _ & Hw1).
  destruct (Hnodes "temperature" (VFloat 25) eq_refl) as (node2 & Hn2 & _ & Hw2).
  exists s', srv', node1, node2.
  split; [exact Hrun|]. split; [exact Hsrv'|]. split; [exact Hn1|].
  split; [apply Hw1, not_elem_of_nil|]. split; [exact Hn2|]. apply Hw2, not_elem_of_nil.
Defined.

